(** * Hotel routes: search, fetch, payment intent, confirm booking

    A shallow embedding of [src/routes/hotels.ts].  The five Express
    handlers are written in a state-and-exception monad over a world that
    holds the Hotel collection, the state of the external services and the
    trace of external calls.  The payment provider SDK, the failure behaviour
    of the database driver, the regular-expression engine and the document
    matcher are an interface ([Environment]); every general theorem holds for
    all of its instances, and [demo_env] is a small in-memory instance used
    to run the handlers on concrete requests. *)

From Stdlib Require Import Ascii ZArith Lia.
From stdpp Require Import base option list strings gmap pretty sorting.

Local Set Warnings "-register-all".
Local Open Scope Z_scope.

(** ** JavaScript values *)

(** A JavaScript number, restricted to the values the handlers compute with:
    [NaN] and the integers.  [Num z] stands for the double with value [z];
    the two agree as long as [z] is a safe integer (below 2^53 in absolute
    value).  Fractions and infinities are outside the model. *)
Inductive number : Type :=
  | NaN
  | Num (z : Z).

(** The values found in [req.query] (strings, arrays, nested objects) and in
    a JSON [req.body]. *)
Inductive jsval : Type :=
  | JUndefined
  | JNull
  | JBool (b : bool)
  | JNum (n : number)
  | JStr (s : string)
  | JArr (items : list jsval)
  | JObj (fields : list (string * jsval)).

(** A plain object: [req.query], [req.body], a booking. *)
Abbreviation jsobject := (gmap string jsval).

(** [o.k]: a missing property reads as [undefined]. *)
Definition prop (o : jsobject) (k : string) : jsval :=
  default JUndefined (o !! k).

Definition number_sub (a b : number) : number :=
  match a, b with
  | Num x, Num y => Num (x - y)
  | _, _ => NaN
  end.

Definition number_mul (a b : number) : number :=
  match a, b with
  | Num x, Num y => Num (x * y)
  | _, _ => NaN
  end.

(** [Math.ceil(a / b)] on integers, for a non-zero divisor. *)
Definition ceil_div (a b : number) : number :=
  match a, b with
  | Num x, Num y => if decide (y = 0) then NaN else Num (- ((- x) `div` y))
  | _, _ => NaN
  end.

Definition number_to_string (n : number) : string :=
  match n with
  | NaN => "NaN"
  | Num z => pretty z
  end.

Fixpoint join_comma (l : list string) : string :=
  match l with
  | [] => ""
  | [s] => s
  | s :: rest => s +:+ "," +:+ join_comma rest
  end.

(** ECMAScript [ToString]; [Array.prototype.join] prints [null] and
    [undefined] elements as the empty string. *)
Fixpoint ToString (v : jsval) : string :=
  match v with
  | JUndefined => "undefined"
  | JNull => "null"
  | JBool true => "true"
  | JBool false => "false"
  | JNum n => number_to_string n
  | JStr s => s
  | JArr items =>
      join_comma
        (map (fun x => match x with
                       | JUndefined | JNull => ""
                       | _ => ToString x
                       end) items)
  | JObj _ => "[object Object]"
  end.

(** ECMAScript [ToBoolean]. *)
Definition truthy (v : jsval) : bool :=
  match v with
  | JUndefined | JNull => false
  | JBool b => b
  | JNum NaN => false
  | JNum (Num z) => negb (z =? 0)
  | JStr s => negb (String.eqb s "")
  | JArr _ | JObj _ => true
  end.

(** *** [parseInt(s, 10)] *)

(** Strings are sequences of 8-bit code units; this is the part of
    ECMAScript's WhiteSpace and LineTerminator below 256. *)
Definition is_white_space (c : ascii) : bool :=
  let n := Z.of_nat (nat_of_ascii c) in
  ((9 <=? n) && (n <=? 13)) || (n =? 32) || (n =? 160).

Fixpoint trim_start (s : string) : string :=
  match s with
  | String c rest => if is_white_space c then trim_start rest else s
  | EmptyString => s
  end.

Definition digit_value (c : ascii) : option Z :=
  let n := Z.of_nat (nat_of_ascii c) in
  if (48 <=? n) && (n <=? 57) then Some (n - 48) else None.

(** The value of the longest prefix of decimal digits, [None] when it is
    empty. *)
Fixpoint leading_digits (s : string) (acc : option Z) : option Z :=
  match s with
  | String c rest =>
      match digit_value c with
      | Some d => leading_digits rest (Some (10 * default 0 acc + d))
      | None => acc
      end
  | EmptyString => acc
  end.

Definition parseInt_string (s : string) : number :=
  let t := trim_start s in
  let '(sign, body) :=
    match t with
    | String "-" rest => (-1, rest)
    | String "+" rest => (1, rest)
    | _ => (1, t)
    end in
  match leading_digits body None with
  | Some m => Num (sign * m)
  | None => NaN
  end.

(** [parseInt(v, 10)]: the argument is first converted with [ToString]. *)
Definition parseInt (v : jsval) : number := parseInt_string (ToString v).

(** ** Documents, filters and sort options *)

(** A booking as it is written to the store: the object built by the
    handler, [{ ...req.body, userId }]. *)
Abbreviation Booking := (gmap string jsval).

(** Modelled from the spec: the Hotel document of [models/hotel] (a
    persisted record describing a hotel: name, location, price, facilities,
    bookings), with the fields that [routes/hotels.ts] reads, writes, filters
    or sorts on. *)
Record Hotel : Type := {
  _id : string;
  name : string;
  city : string;
  country : string;
  adultCount : number;
  childCount : number;
  facilities : list string;
  type : string;
  starRating : number;
  pricePerNight : number;
  lastUpdated : Z;
  bookings : list Booking
}.

(** [new RegExp(source, flags)]. *)
Record RegExp : Type := { source : string; flags : string }.

(** The operator objects that [constructSearchQuery] builds. *)
Inductive Clause : Type :=
  | COr (alternatives : list (string * RegExp))
  | CGte (n : number)
  | CLte (n : number)
  | CAll (values : list jsval)
  | CIn (values : list jsval).

(** A filter object: keys to clauses; the empty object is the empty map. *)
Abbreviation Filter := (gmap string Clause).

(** A sort object such as [{ starRating: -1 }]: fields with a direction. *)
Abbreviation SortOptions := (list (string * Z)).

Record Exn : Type := { exn_name : string; exn_message : string }.

Inductive Result (A : Type) : Type :=
  | Ok (a : A)
  | Thrown (e : Exn).
Arguments Ok {A} a.
Arguments Thrown {A} e.

(** ** External calls *)

(** The calls on the [Hotel] model. *)
Inductive DbCall : Type :=
  | DbFind (q : Filter) (sort : SortOptions) (skip limit : option number)
  | DbCountDocuments (q : Filter)
  | DbFindById (id : string)
  | DbFindOneAndUpdate (id : string) (pushed : Booking).

Record Address : Type := {
  line1 : string;
  addr_city : string;
  state : string;
  addr_country : string;
  postal_code : string
}.

Record CustomerCreateParams : Type := {
  cust_name : string;
  address : Address
}.

Record Customer : Type := { customer_id : string }.

Record PaymentIntentCreateParams : Type := {
  amount : number;
  currency : string;
  customer : string;
  description : string;
  metadata : gmap string string
}.

(** The fields of the provider's payment intent that the handlers read. *)
Record PaymentIntent : Type := {
  pi_id : string;
  pi_client_secret : option string;
  pi_status : string;
  pi_metadata : gmap string string
}.

Inductive Event : Type :=
  | EvDb (c : DbCall)
  | EvCustomersCreate (p : CustomerCreateParams)
  | EvPaymentIntentsCreate (p : PaymentIntentCreateParams)
  | EvPaymentIntentsRetrieve (id : jsval).

Definition is_db_event (e : Event) : bool :=
  match e with
  | EvDb _ => true
  | _ => false
  end.

(** What the handlers rely on and do not define: the payment provider SDK,
    the ways a database call can reject (cast errors, lost connections), the
    matching of a document against a filter, the syntax check of the
    regular-expression engine and the conversion of strings to numbers.
    [Ext] is the state of those services. *)
Class Environment : Type := {
  Ext : Type;
  db_fault : DbCall -> Ext -> option Exn * Ext;
  doc_matches : Filter -> Hotel -> bool;
  regexp_syntax_ok : string -> bool;
  StringToNumber : string -> number;
  customers_create :
    CustomerCreateParams -> Ext -> Result Customer * Ext;
  paymentIntents_create :
    PaymentIntentCreateParams -> Ext -> Result PaymentIntent * Ext;
  paymentIntents_retrieve :
    jsval -> Ext -> Result (option PaymentIntent) * Ext
}.

(** ** The world and the handler monad *)

Record World `{Environment} : Type := {
  hotels : list Hotel;
  ext : Ext;
  trace : list Event
}.

Definition M `{Environment} (A : Type) : Type := World -> Result A * World.

Definition ret `{Environment} {A} (a : A) : M A := fun w => (Ok a, w).

Definition throw `{Environment} {A} (e : Exn) : M A := fun w => (Thrown e, w).

Definition bind `{Environment} {A B} (m : M A) (k : A -> M B) : M B :=
  fun w =>
    match m w with
    | (Ok a, w1) => k a w1
    | (Thrown e, w1) => (Thrown e, w1)
    end.

(** [try { body } catch (error) { handler }]. *)
Definition try_catch `{Environment} {A} (body : M A) (handler : Exn -> M A)
  : M A :=
  fun w =>
    match body w with
    | (Ok a, w1) => (Ok a, w1)
    | (Thrown e, w1) => handler e w1
    end.

Definition lift `{Environment} {A} (r : Result A) : M A := fun w => (r, w).

Notation "x <- m ;; k" := (bind m (fun x => k))
  (at level 100, m at next level, right associativity).

(** *** Database calls *)

Definition mongo_error (msg : string) : Exn :=
  {| exn_name := "MongoServerError"; exn_message := msg |}.

(** A call on the model: it is recorded, the driver may reject it, and
    otherwise [run] reads or updates the collection.  A rejected call leaves
    the collection as it was. *)
Definition db_call `{Environment} {A} (c : DbCall)
    (run : list Hotel -> Result A * list Hotel) : M A :=
  fun w =>
    let f := db_fault c (ext w) in
    let tr := trace w ++ [EvDb c] in
    match f.1 with
    | Some e => (Thrown e, {| hotels := hotels w; ext := f.2; trace := tr |})
    | None =>
        let r := run (hotels w) in
        (r.1, {| hotels := r.2; ext := f.2; trace := tr |})
    end.

(** Order of numbers in a sort: [NaN] comes before every number. *)
Definition number_ltb (a b : number) : bool :=
  match a, b with
  | NaN, Num _ => true
  | Num x, Num y => x <? y
  | _, _ => false
  end.

Definition sort_field (f : string) (h : Hotel) : number :=
  if String.eqb f "starRating" then starRating h
  else if String.eqb f "pricePerNight" then pricePerNight h
  else if String.eqb f "lastUpdated" then Num (lastUpdated h)
  else NaN.

(** [a] sorts strictly before [b] under direction [dir] (1 or -1). *)
Definition strictly_before (dir : Z) (a b : number) : bool :=
  if 0 <=? dir then number_ltb a b else number_ltb b a.

Fixpoint insert_by (f : string) (dir : Z) (h : Hotel) (sorted : list Hotel)
  : list Hotel :=
  match sorted with
  | [] => [h]
  | x :: rest =>
      if strictly_before dir (sort_field f x) (sort_field f h)
      then x :: insert_by f dir h rest
      else h :: x :: rest
  end.

(** Stable sort on one field. *)
Definition sort_by (f : string) (dir : Z) (l : list Hotel) : list Hotel :=
  foldr (insert_by f dir) [] l.

(** [.sort(options)]: the first field is the most significant; the empty
    object keeps the natural order. *)
Definition sort_docs (options : SortOptions) (l : list Hotel) : list Hotel :=
  foldr (fun fd acc => sort_by fd.1 fd.2 acc) l options.

(** [.skip(n)]: the server rejects a skip that is not a non-negative
    integer. *)
Definition apply_skip (skip : option number) (l : list Hotel)
  : Result (list Hotel) :=
  match skip with
  | None => Ok l
  | Some (Num n) =>
      if n <? 0 then Thrown (mongo_error "Skip value must be non-negative")
      else Ok (drop (Z.to_nat n) l)
  | Some NaN => Thrown (mongo_error "Skip value must be an integer")
  end.

(** [.limit(n)]: zero means no limit, a negative limit counts as its
    absolute value. *)
Definition apply_limit (limit : option number) (l : list Hotel)
  : Result (list Hotel) :=
  match limit with
  | None => Ok l
  | Some (Num n) => if n =? 0 then Ok l else Ok (take (Z.to_nat (Z.abs n)) l)
  | Some NaN => Thrown (mongo_error "Limit value must be an integer")
  end.

Definition matching `{Environment} (q : Filter) (l : list Hotel) : list Hotel :=
  List.filter (doc_matches q) l.

Definition find_docs `{Environment} (q : Filter) (sort : SortOptions)
    (skip limit : option number) (l : list Hotel) : Result (list Hotel) :=
  match apply_skip skip (sort_docs sort (matching q l)) with
  | Ok skipped => apply_limit limit skipped
  | Thrown e => Thrown e
  end.

(** [Hotel.find(q).sort(sort).skip(skip).limit(limit)], one query. *)
Definition Hotel_find `{Environment} (q : Filter) (sort : SortOptions)
    (skip limit : option number) : M (list Hotel) :=
  db_call (DbFind q sort skip limit)
    (fun l => (find_docs q sort skip limit l, l)).

(** [Hotel.countDocuments(q)]. *)
Definition Hotel_countDocuments `{Environment} (q : Filter) : M number :=
  db_call (DbCountDocuments q)
    (fun l => (Ok (Num (Z.of_nat (length (matching q l)))), l)).

Definition find_by_id (id : string) (l : list Hotel) : option Hotel :=
  List.find (fun h => String.eqb (_id h) id) l.

(** [Hotel.findById(id)]. *)
Definition Hotel_findById `{Environment} (id : string) : M (option Hotel) :=
  db_call (DbFindById id) (fun l => (Ok (find_by_id id l), l)).

Definition with_booking (h : Hotel) (b : Booking) : Hotel :=
  {| _id := _id h; name := name h; city := city h; country := country h;
     adultCount := adultCount h; childCount := childCount h;
     facilities := facilities h; type := type h; starRating := starRating h;
     pricePerNight := pricePerNight h; lastUpdated := lastUpdated h;
     bookings := bookings h ++ [b] |}.

(** [$push: { bookings: b }] on the first document whose [_id] is [id]: the
    updated document and the updated collection, or [None] when no document
    has that id. *)
Fixpoint push_booking (id : string) (b : Booking) (l : list Hotel)
  : option (Hotel * list Hotel) :=
  match l with
  | [] => None
  | h :: rest =>
      if String.eqb (_id h) id
      then Some (with_booking h b, with_booking h b :: rest)
      else match push_booking id b rest with
           | Some (u, rest') => Some (u, h :: rest')
           | None => None
           end
  end.

(** [Hotel.findOneAndUpdate({ _id: id }, { $push: { bookings: b } },
    { new: true })]. *)
Definition Hotel_findOneAndUpdate `{Environment} (id : string) (b : Booking)
  : M (option Hotel) :=
  db_call (DbFindOneAndUpdate id b)
    (fun l => match push_booking id b l with
              | Some (u, l') => (Ok (Some u), l')
              | None => (Ok None, l)
              end).

(** *** Provider calls *)

Definition provider_call `{Environment} {A} (ev : Event)
    (run : Ext -> Result A * Ext) : M A :=
  fun w =>
    let r := run (ext w) in
    (r.1, {| hotels := hotels w; ext := r.2; trace := trace w ++ [ev] |}).

Definition stripe_customers_create `{Environment} (p : CustomerCreateParams)
  : M Customer :=
  provider_call (EvCustomersCreate p) (customers_create p).

Definition stripe_paymentIntents_create `{Environment}
    (p : PaymentIntentCreateParams) : M PaymentIntent :=
  provider_call (EvPaymentIntentsCreate p) (paymentIntents_create p).

Definition stripe_paymentIntents_retrieve `{Environment} (id : jsval)
  : M (option PaymentIntent) :=
  provider_call (EvPaymentIntentsRetrieve id) (paymentIntents_retrieve id).

(** ** Requests and responses *)

(** Modelled from the spec: [userId] is the id that the [verifyToken]
    middleware of [middleware/auth] stores on the request once it has
    verified the token; the two booking routes run behind it. *)
Record Request : Type := {
  params : gmap string string;
  query : jsobject;
  body : jsobject;
  userId : string
}.

(** [req.params.k]; the router only dispatches to a handler with the
    parameters of its path bound. *)
Definition param (req : Request) (k : string) : string :=
  default "" (params req !! k).

Record Pagination : Type := { total : number; page : number; pages : number }.

Record HotelSearchResponse : Type := {
  data : list Hotel;
  pagination : Pagination
}.

Inductive Payload : Type :=
  | PMessage (message : string)
  | PErrors (errors : list string)
  | PSearch (r : HotelSearchResponse)
  | PHotels (l : list Hotel)
  | PHotel (h : Hotel)
  | PPaymentIntent (paymentIntentId : string) (clientSecret : option string)
      (totalCost : number).

Record Response : Type := { status : nat; payload : Payload }.

(** [res.json(p)] answers with status 200. *)
Definition json (p : Payload) : Response := {| status := 200; payload := p |}.

Definition status_json (code : nat) (p : Payload) : Response :=
  {| status := code; payload := p |}.

(** ** [constructSearchQuery] *)

Definition rbind {A B} (r : Result A) (k : A -> Result B) : Result B :=
  match r with
  | Ok a => k a
  | Thrown e => Thrown e
  end.

(** [new RegExp(pattern, flags)] throws a [SyntaxError] on a malformed
    pattern. *)
Definition new_RegExp `{Environment} (pattern : jsval) (fl : string)
  : Result RegExp :=
  let src := ToString pattern in
  if regexp_syntax_ok src then Ok {| source := src; flags := fl |}
  else Thrown {| exn_name := "SyntaxError";
                 exn_message := "Invalid regular expression" |}.

(** [Array.isArray(v) ? v : [v]]. *)
Definition array_or_singleton (v : jsval) : list jsval :=
  match v with
  | JArr items => items
  | _ => [v]
  end.

(** [Array.isArray(v) ? v.map(star => parseInt(star, 10))
                      : [parseInt(v, 10)]]. *)
Definition star_ratings (v : jsval) : list jsval :=
  match v with
  | JArr items => map (fun star => JNum (parseInt star)) items
  | _ => [JNum (parseInt v)]
  end.

Definition constructSearchQuery `{Environment} (queryParams : jsobject)
  : Result Filter :=
  let q0 : Filter := empty in
  rbind
    (if truthy (prop queryParams "destination") then
       rbind (new_RegExp (prop queryParams "destination") "i") (fun re_city =>
       rbind (new_RegExp (prop queryParams "destination") "i") (fun re_country =>
       Ok (<["$or" := COr [("city", re_city); ("country", re_country)]]> q0)))
     else Ok q0)
    (fun q1 =>
  let q2 :=
    if truthy (prop queryParams "adultCount")
    then <["adultCount" := CGte (parseInt (prop queryParams "adultCount"))]> q1
    else q1 in
  let q3 :=
    if truthy (prop queryParams "childCount")
    then <["childCount" := CGte (parseInt (prop queryParams "childCount"))]> q2
    else q2 in
  let q4 :=
    if truthy (prop queryParams "facilities")
    then <["facilities" :=
             CAll (array_or_singleton (prop queryParams "facilities"))]> q3
    else q3 in
  let q5 :=
    if truthy (prop queryParams "types")
    then <["type" := CIn (array_or_singleton (prop queryParams "types"))]> q4
    else q4 in
  let q6 :=
    if truthy (prop queryParams "stars")
    then <["starRating" := CIn (star_ratings (prop queryParams "stars"))]> q5
    else q5 in
  let q7 :=
    if truthy (prop queryParams "maxPrice")
    then <["pricePerNight" := CLte (parseInt (prop queryParams "maxPrice"))]> q6
    else q6 in
  Ok q7).

(** ** The handlers *)

(** The [switch] on [req.query.sortOption]. *)
Definition sortOptions_of (sortOption : jsval) : SortOptions :=
  match sortOption with
  | JStr s =>
      if String.eqb s "starRating" then [("starRating", -1)]
      else if String.eqb s "pricePerNightAsc" then [("pricePerNight", 1)]
      else if String.eqb s "pricePerNightDesc" then [("pricePerNight", -1)]
      else []
  | _ => []
  end.

Definition pageSize : number := Num 5.

(** [req.query.page?.toString() || "1"]. *)
Definition page_string (page : jsval) : string :=
  match page with
  | JUndefined | JNull => "1"
  | v => if String.eqb (ToString v) "" then "1" else ToString v
  end.

Definition pageNumber_of (req : Request) : number :=
  parseInt_string (page_string (prop (query req) "page")).

Definition skip_of (req : Request) : number :=
  number_mul (number_sub (pageNumber_of req) (Num 1)) pageSize.

(** [GET /search]. *)
Definition search `{Environment} (req : Request) : M Response :=
  try_catch
    (q <- lift (constructSearchQuery (query req)) ;;
     let sortOptions := sortOptions_of (prop (query req) "sortOption") in
     let pageNumber := pageNumber_of req in
     let skip := skip_of req in
     found <- Hotel_find q sortOptions (Some skip) (Some pageSize) ;;
     count <- Hotel_countDocuments q ;;
     ret (json (PSearch
       {| data := found;
          pagination := {| total := count;
                           page := pageNumber;
                           pages := ceil_div count pageSize |} |})))
    (fun _ =>
       ret (status_json 500
              (PMessage "Something went wrong while searching hotels"))).

(** [GET /]. *)
Definition fetchAll `{Environment} (req : Request) : M Response :=
  try_catch
    (found <- Hotel_find empty [("lastUpdated", -1)] None None ;;
     ret (json (PHotels found)))
    (fun _ => ret (status_json 500 (PMessage "Error fetching hotels"))).

(** [param("id").notEmpty().withMessage("Hotel ID is required")]. *)
Definition validationResult (req : Request) : list string :=
  if String.eqb (param req "id") "" then ["Hotel ID is required"] else [].

(** [GET /:id]. *)
Definition fetchOne `{Environment} (req : Request) : M Response :=
  match validationResult req with
  | (_ :: _) as errors => ret (status_json 400 (PErrors errors))
  | [] =>
      let id := param req "id" in
      try_catch
        (found <- Hotel_findById id ;;
         match found with
         | None => ret (status_json 404 (PMessage "Hotel not found"))
         | Some hotel => ret (json (PHotel hotel))
         end)
        (fun _ => ret (status_json 500 (PMessage "Error fetching hotel")))
  end.

(** ECMAScript [ToNumber], as applied by [*] to its operands. *)
Definition ToNumber `{Environment} (v : jsval) : number :=
  match v with
  | JUndefined => NaN
  | JNull => Num 0
  | JBool b => Num (if b then 1 else 0)
  | JNum n => n
  | JStr s => StringToNumber s
  | JArr _ | JObj _ => StringToNumber (ToString v)
  end.

Definition test_customer : CustomerCreateParams :=
  {| cust_name := "Test User";
     address := {| line1 := "123 Test Street";
                   addr_city := "Hyderabad";
                   state := "Telangana";
                   addr_country := "IN";
                   postal_code := "500001" |} |}.

Definition totalCost_of `{Environment} (hotel : Hotel) (numberOfNights : jsval)
  : number :=
  number_mul (pricePerNight hotel) (ToNumber numberOfNights).

Definition intent_params `{Environment} (hotel : Hotel) (hotelId : string)
    (req : Request) (cust : Customer) : PaymentIntentCreateParams :=
  let numberOfNights := prop (body req) "numberOfNights" in
  {| amount := number_mul (totalCost_of hotel numberOfNights) (Num 100);
     currency := "inr";
     customer := customer_id cust;
     description := "Booking at " +:+ name hotel +:+ " for "
                    +:+ ToString numberOfNights +:+ " nights";
     metadata := <["hotelId" := hotelId]> (<["userId" := userId req]> empty) |}.

(** [POST /:hotelId/bookings/payment-intent] (after [verifyToken]).  The
    lookup of the hotel is made before the [try] block. *)
Definition createPaymentIntent `{Environment} (req : Request) : M Response :=
  let numberOfNights := prop (body req) "numberOfNights" in
  let hotelId := param req "hotelId" in
  found <- Hotel_findById hotelId ;;
  match found with
  | None => ret (status_json 400 (PMessage "Hotel not found"))
  | Some hotel =>
      let totalCost := totalCost_of hotel numberOfNights in
      try_catch
        (cust <- stripe_customers_create test_customer ;;
         paymentIntent <-
           stripe_paymentIntents_create (intent_params hotel hotelId req cust) ;;
         ret (json (PPaymentIntent (pi_id paymentIntent)
                      (pi_client_secret paymentIntent) totalCost)))
        (fun _ =>
           ret (status_json 500 (PMessage "Error creating payment intent")))
  end.

(** [{ ...req.body, userId: req.userId }]. *)
Definition newBooking_of (req : Request) : Booking :=
  <["userId" := JStr (userId req)]> (body req).

(** The metadata of the intent names this hotel and this user. *)
Definition metadata_matches (paymentIntent : PaymentIntent)
    (hotelId uid : string) : bool :=
  bool_decide (pi_metadata paymentIntent !! "hotelId" = Some hotelId)
  && bool_decide (pi_metadata paymentIntent !! "userId" = Some uid).

(** [POST /:hotelId/bookings] (after [verifyToken]). *)
Definition confirmBooking `{Environment} (req : Request) : M Response :=
  try_catch
    (let paymentIntentId := prop (body req) "paymentIntentId" in
     let hotelId := param req "hotelId" in
     retrieved <- stripe_paymentIntents_retrieve paymentIntentId ;;
     match retrieved with
     | None => ret (status_json 400 (PMessage "Payment intent not found"))
     | Some paymentIntent =>
         if negb (metadata_matches paymentIntent hotelId (userId req))
         then ret (status_json 400
                     (PMessage "Payment intent metadata mismatch"))
         else if negb (String.eqb (pi_status paymentIntent) "succeeded")
         then ret (status_json 400
                     (PMessage ("Payment not succeeded. Status: "
                                +:+ pi_status paymentIntent)))
         else
           let newBooking := newBooking_of req in
           updated <- Hotel_findOneAndUpdate hotelId newBooking ;;
           match updated with
           | None => ret (status_json 404 (PMessage "Hotel not found"))
           | Some _ => ret (status_json 200 (PMessage "Booking successful"))
           end
     end)
    (fun _ => ret (status_json 500 (PMessage "Something went wrong"))).

(** The endpoints of the router. *)
Inductive Endpoint : Type :=
  | GetSearch
  | GetAll
  | GetById
  | PostPaymentIntent
  | PostBooking.

Definition handle `{Environment} (ep : Endpoint) : Request -> M Response :=
  match ep with
  | GetSearch => search
  | GetAll => fetchAll
  | GetById => fetchOne
  | PostPaymentIntent => createPaymentIntent
  | PostBooking => confirmBooking
  end.

(** The database calls and the provider calls that a run adds to the
    trace. *)
Definition new_events `{Environment} (before after : World) : list Event :=
  drop (length (trace before)) (trace after).

Definition db_calls (events : list Event) : nat :=
  length (List.filter is_db_event events).

(** ** A concrete environment

    An in-memory stand-in for the services, used to run the handlers.  The
    database rejects every call during an outage and rejects an id that is
    not a 24-digit hexadecimal ObjectId with a cast error; the provider
    numbers its objects and throws on an unknown payment intent, as the real
    SDK does. *)

Record DemoExt : Type := {
  outage : bool;
  intents : list PaymentIntent;
  created : nat
}.

Definition is_hex_digit (c : ascii) : bool :=
  let n := Z.of_nat (nat_of_ascii c) in
  ((48 <=? n) && (n <=? 57)) || ((97 <=? n) && (n <=? 102))
  || ((65 <=? n) && (n <=? 70)).

Fixpoint all_chars (p : ascii -> bool) (s : string) : bool :=
  match s with
  | EmptyString => true
  | String c rest => p c && all_chars p rest
  end.

Definition is_object_id (s : string) : bool :=
  (String.length s =? 24)%nat && all_chars is_hex_digit s.

Definition demo_db_fault (c : DbCall) (e : DemoExt) : option Exn * DemoExt :=
  if outage e
  then (Some {| exn_name := "MongoNetworkError";
                exn_message := "connection closed" |}, e)
  else
    match c with
    | DbFindById id | DbFindOneAndUpdate id _ =>
        if is_object_id id then (None, e)
        else (Some {| exn_name := "CastError";
                      exn_message := "Cast to ObjectId failed" |}, e)
    | _ => (None, e)
    end.

Definition lower (c : ascii) : ascii :=
  let n := nat_of_ascii c in
  if ((65 <=? n) && (n <=? 90))%nat then ascii_of_nat (n + 32) else c.

Fixpoint prefix_ci (p s : string) : bool :=
  match p, s with
  | EmptyString, _ => true
  | String a p', String b s' =>
      Ascii.eqb (lower a) (lower b) && prefix_ci p' s'
  | String _ _, EmptyString => false
  end.

Fixpoint contains_ci (p s : string) : bool :=
  prefix_ci p s ||
  match s with
  | EmptyString => false
  | String _ s' => contains_ci p s'
  end.

Definition number_leb (a b : number) : bool :=
  match a, b with
  | Num x, Num y => x <=? y
  | _, _ => false
  end.

Definition string_field (f : string) (h : Hotel) : string :=
  if String.eqb f "city" then city h
  else if String.eqb f "country" then country h
  else if String.eqb f "type" then type h
  else "".

Definition number_field (f : string) (h : Hotel) : number :=
  if String.eqb f "adultCount" then adultCount h
  else if String.eqb f "childCount" then childCount h
  else sort_field f h.

(** The patterns are matched as literal text, ignoring case. *)
Definition demo_clause_holds (h : Hotel) (kc : string * Clause) : bool :=
  match kc.2 with
  | COr alternatives =>
      existsb (fun fr => contains_ci (source fr.2) (string_field fr.1 h))
        alternatives
  | CGte n => number_leb n (number_field kc.1 h)
  | CLte n => number_leb (number_field kc.1 h) n
  | CAll values =>
      forallb (fun v => existsb (String.eqb (ToString v)) (facilities h))
        values
  | CIn values =>
      existsb (fun v =>
        match v with
        | JNum n => number_leb n (number_field kc.1 h)
                    && number_leb (number_field kc.1 h) n
        | _ => String.eqb (ToString v) (string_field kc.1 h)
        end) values
  end.

Definition demo_doc_matches (q : Filter) (h : Hotel) : bool :=
  forallb (demo_clause_holds h) (map_to_list q).

(** Parentheses must balance. *)
Fixpoint balanced (s : string) (depth : nat) : bool :=
  match s with
  | EmptyString => (depth =? 0)%nat
  | String c rest =>
      if Ascii.eqb c "(" then balanced rest (S depth)
      else if Ascii.eqb c ")" then
        match depth with
        | O => false
        | S d => balanced rest d
        end
      else balanced rest depth
  end.

Definition demo_regexp_syntax_ok (s : string) : bool := balanced s 0.

(** Decimal integer literals only. *)
Definition demo_StringToNumber (s : string) : number :=
  let t := trim_start s in
  match t with
  | EmptyString => Num 0
  | _ => if all_chars (fun c => bool_decide (is_Some (digit_value c))) t
         then parseInt_string t else NaN
  end.

Definition provider_error (msg : string) : Exn :=
  {| exn_name := "StripeInvalidRequestError"; exn_message := msg |}.

Definition demo_customers_create (p : CustomerCreateParams) (e : DemoExt)
  : Result Customer * DemoExt :=
  (Ok {| customer_id := "cus_" +:+ pretty (created e) |},
   {| outage := outage e; intents := intents e; created := S (created e) |}).

Definition demo_paymentIntents_create (p : PaymentIntentCreateParams)
    (e : DemoExt) : Result PaymentIntent * DemoExt :=
  match amount p with
  | Num a =>
      if 0 <? a then
        let id := "pi_" +:+ pretty (created e) in
        let paymentIntent :=
          {| pi_id := id;
             pi_client_secret := Some (id +:+ "_secret");
             pi_status := "requires_payment_method";
             pi_metadata := metadata p |} in
        (Ok paymentIntent,
         {| outage := outage e;
            intents := intents e ++ [paymentIntent];
            created := S (created e) |})
      else (Thrown (provider_error "Invalid positive integer"), e)
  | NaN => (Thrown (provider_error "Invalid integer"), e)
  end.

Definition demo_paymentIntents_retrieve (id : jsval) (e : DemoExt)
  : Result (option PaymentIntent) * DemoExt :=
  match id with
  | JStr s =>
      match List.find (fun i => String.eqb (pi_id i) s) (intents e) with
      | Some paymentIntent => (Ok (Some paymentIntent), e)
      | None => (Thrown (provider_error "No such payment_intent"), e)
      end
  | _ => (Thrown (provider_error "Invalid payment intent id"), e)
  end.

#[global] Instance demo_env : Environment := {|
  Ext := DemoExt;
  db_fault := demo_db_fault;
  doc_matches := demo_doc_matches;
  regexp_syntax_ok := demo_regexp_syntax_ok;
  StringToNumber := demo_StringToNumber;
  customers_create := demo_customers_create;
  paymentIntents_create := demo_paymentIntents_create;
  paymentIntents_retrieve := demo_paymentIntents_retrieve
|}.

Definition mk_hotel (id nm cty ctry : string) (stars price : Z) : Hotel :=
  {| _id := id; name := nm; city := cty; country := ctry;
     adultCount := Num 2; childCount := Num 1;
     facilities := ["Free WiFi"; "Parking"]; type := "Budget";
     starRating := Num stars; pricePerNight := Num price;
     lastUpdated := 1700000000000 + price; bookings := [] |}.

Definition hotel_a : string := "64b7f0c2a1d3e4f5a6b7c8d1".
Definition hotel_b : string := "64b7f0c2a1d3e4f5a6b7c8d2".

Definition demo_hotels : list Hotel :=
  [ mk_hotel hotel_a "Lake View" "Udaipur" "India" 4 3000;
    mk_hotel hotel_b "Sea Breeze" "Goa" "India" 3 2000;
    mk_hotel "64b7f0c2a1d3e4f5a6b7c8d3" "Hill Top" "Shimla" "India" 5 5000;
    mk_hotel "64b7f0c2a1d3e4f5a6b7c8d4" "City Inn" "Pune" "India" 2 1000;
    mk_hotel "64b7f0c2a1d3e4f5a6b7c8d5" "Old Fort" "Jaipur" "India" 4 3500;
    mk_hotel "64b7f0c2a1d3e4f5a6b7c8d6" "Riverside" "Kochi" "India" 3 2500;
    mk_hotel "64b7f0c2a1d3e4f5a6b7c8d7" "Alpine" "Zermatt" "Switzerland" 5 9000 ].

(** A paid intent of user [u1] for [hotel_a]. *)
Definition paid_intent : PaymentIntent :=
  {| pi_id := "pi_paid";
     pi_client_secret := Some "pi_paid_secret";
     pi_status := "succeeded";
     pi_metadata := <["hotelId" := hotel_a]> (<["userId" := "u1"]> empty) |}.

Definition demo_world : World :=
  {| hotels := demo_hotels;
     ext := {| outage := false; intents := [paid_intent]; created := 0 |};
     trace := [] |}.

Definition demo_world_outage : World :=
  {| hotels := demo_hotels;
     ext := {| outage := true; intents := [paid_intent]; created := 0 |};
     trace := [] |}.

Definition mk_request (ps : list (string * string))
    (qs bs : list (string * jsval)) (uid : string) : Request :=
  {| params := list_to_map ps; query := list_to_map qs;
     body := list_to_map bs; userId := uid |}.

(** [POST /<hotel_a>/bookings] by [u1], who also sends a [userId] of another
    user in the body. *)
Definition confirm_request : Request :=
  mk_request [("hotelId", hotel_a)] []
    [("paymentIntentId", JStr "pi_paid"); ("userId", JStr "someone-else");
     ("totalCost", JNum (Num 6000))] "u1".

(** [POST /<hotel_a>/bookings/payment-intent] for two nights. *)
Definition intent_request : Request :=
  mk_request [("hotelId", hotel_a)] [] [("numberOfNights", JNum (Num 2))] "u1".

(** [POST /not-an-object-id/bookings/payment-intent]. *)
Definition malformed_intent_request : Request :=
  mk_request [("hotelId", "not-an-object-id")] []
    [("numberOfNights", JNum (Num 2))] "u1".

(** [GET /search?destination=india&sortOption=pricePerNightAsc&page=2]. *)
Definition search_request : Request :=
  mk_request []
    [("destination", JStr "india"); ("sortOption", JStr "pricePerNightAsc");
     ("page", JStr "2")] [] "".

(** [GET /search?page=0]. *)
Definition search_page0_request : Request :=
  mk_request [] [("page", JStr "0")] [] "".


(** ** Properties of requests and runs that the statements below use *)

(** One booking was appended to a hotel with this id, and nothing else in
    the collection changed. *)
Definition booking_appended (hotelId : string) (before after : list Hotel)
  : Prop :=
  exists pre h post b,
    before = pre ++ h :: post /\ _id h = hotelId /\
    after = pre ++ with_booking h b :: post.

(** The retrieved payment intent exists, names this hotel and this user,
    and has succeeded. *)
Definition payment_confirmed `{Environment} (req : Request) (w : World)
  : Prop :=
  exists paymentIntent,
    (paymentIntents_retrieve (prop (body req) "paymentIntentId") (ext w)).1
      = Ok (Some paymentIntent) /\
    pi_metadata paymentIntent !! "hotelId" = Some (param req "hotelId") /\
    pi_metadata paymentIntent !! "userId" = Some (userId req) /\
    pi_status paymentIntent = "succeeded".

(** The fault, if any, with which the driver rejects the update of the
    confirm-booking handler. *)
Definition update_fault `{Environment} (req : Request) (w : World)
  : option Exn :=
  (db_fault (DbFindOneAndUpdate (param req "hotelId") (newBooking_of req))
     (paymentIntents_retrieve (prop (body req) "paymentIntentId")
        (ext w)).2).1.

(** The sentence on confirm-booking, read literally: appended exactly when
    the payment is confirmed, and otherwise a 400 or a 404 and no change. *)
Definition confirm_claim_as_stated `{Environment} (req : Request) (w : World)
  : Prop :=
  let r := confirmBooking req w in
  (booking_appended (param req "hotelId") (hotels w) (hotels r.2)
   <-> payment_confirmed req w) /\
  (~ booking_appended (param req "hotelId") (hotels w) (hotels r.2) ->
   hotels r.2 = hotels w /\
   exists resp, r.1 = Ok resp /\ (status resp = 400%nat \/ status resp = 404%nat)).


(** The sentence on database calls, read literally. *)
Definition at_most_one_db_call `{Environment} (ep : Endpoint) (req : Request)
    (w : World) : Prop :=
  (db_calls (new_events w (handle ep req w).2) <= 1)%nat.

(** The number of database calls an endpoint can make. *)
Definition db_call_bound (ep : Endpoint) : nat :=
  match ep with
  | GetSearch => 2
  | _ => 1
  end.


(** The query parameters that [constructSearchQuery] reads. *)
Definition filter_params : list string :=
  ["destination"; "adultCount"; "childCount"; "facilities"; "types"; "stars";
   "maxPrice"].

(** The first hotel of [demo_hotels]. *)
Definition lake_view : Hotel :=
  mk_hotel hotel_a "Lake View" "Udaipur" "India" 4 3000.

(** The filter of [search_request]. *)
Definition india_filter : Filter :=
  <["$or" := COr [("city", {| source := "india"; flags := "i" |});
                  ("country", {| source := "india"; flags := "i" |})]]> empty.


#[global] Instance Endpoint_eq_dec : EqDecision Endpoint.
Proof. solve_decision. Defined.

(** [a] may come before [b] in a list sorted on field [f] in direction
    [dir]: [b] does not sort strictly before [a]. *)
Definition in_order (f : string) (dir : Z) (a b : Hotel) : Prop :=
  strictly_before dir (sort_field f b) (sort_field f a) = false.

(** [a <= b] in the order of a sort: [NaN] is below every number. *)
Definition number_le (a b : number) : Prop := number_ltb b a = false.



(** [GET /<hotel_a>]. *)
Definition fetch_request : Request :=
  mk_request [("id", hotel_a)] [] [] "".

(** [POST /<unknown id>/bookings/payment-intent]: a well-formed id that no
    hotel has. *)
Definition unknown_hotel_intent_request : Request :=
  mk_request [("hotelId", "64b7f0c2a1d3e4f5a6b7c8ff")] []
    [("numberOfNights", JNum (Num 2))] "u1".

(** [POST /<hotel_a>/bookings/payment-intent] without [numberOfNights]. *)
Definition no_nights_request : Request :=
  mk_request [("hotelId", hotel_a)] [] [] "u1".

(** The confirmation of [confirm_request], sent by another user. *)
Definition other_user_confirm_request : Request :=
  mk_request [("hotelId", hotel_a)] []
    [("paymentIntentId", JStr "pi_paid")] "u2".

(** [GET /search?destination=(]. *)
Definition bad_destination_request : Request :=
  mk_request [] [("destination", JStr "(")] [] "".

(** [GET /search?destination=india&page=9]. *)
Definition far_page_request : Request :=
  mk_request [] [("destination", JStr "india"); ("page", JStr "9")] [] "".

(** * Theorems *)

Example parseInt_demo :
  parseInt (JStr "  42px") = Num 42 /\ parseInt (JStr "-7") = Num (-7) /\
  parseInt (JStr "abc") = NaN /\ parseInt (JArr [JStr "3"; JStr "4"]) = Num 3 /\
  parseInt JUndefined = NaN /\ ToString (JNum (Num (-12))) = "-12".
Proof. repeat split; reflexivity. Qed.

(** ** The collection update *)

Lemma with_booking_neq (h : Hotel) (b : Booking) : with_booking h b <> h.
Proof.
  intros E. apply (f_equal (fun x => length (bookings x))) in E.
  simpl in E. rewrite length_app in E. simpl in E. lia.
Qed.

Lemma booking_appended_changes (id : string) (l l' : list Hotel) :
  booking_appended id l l' -> l' <> l.
Proof.
  intros (pre & h & post & b & -> & _ & ->) E.
  apply app_inv_head in E. inversion E as [E'].
  by apply with_booking_neq in E'.
Qed.

Lemma push_booking_None (id : string) (b : Booking) (l : list Hotel) :
  push_booking id b l = None <-> find_by_id id l = None.
Proof.
  unfold find_by_id. induction l as [|h l IH]; simpl; [done|].
  destruct (String.eqb (_id h) id); [done|].
  destruct (push_booking id b l) as [[u l']|]; split; intros E;
    try done; by apply IH in E.
Qed.

Lemma push_booking_Some (id : string) (b : Booking) (l l' : list Hotel)
    (u : Hotel) :
  push_booking id b l = Some (u, l') ->
  exists pre h post,
    l = pre ++ h :: post /\ _id h = id /\
    Forall (fun x => _id x <> id) pre /\
    find_by_id id l = Some h /\
    u = with_booking h b /\ l' = pre ++ with_booking h b :: post.
Proof.
  unfold find_by_id. revert l' u.
  induction l as [|h l IH]; simpl; intros l' u E; [done|].
  destruct (String.eqb (_id h) id) eqn:Eid.
  - inversion E; subst. exists [], h, l.
    apply String.eqb_eq in Eid. by repeat split.
  - destruct (push_booking id b l) as [[u0 l0]|] eqn:Ep; [|done].
    inversion E; subst.
    destruct (IH _ _ eq_refl) as (pre & h0 & post & -> & Hid & Hpre & Hf & -> & ->).
    exists (h :: pre), h0, post. repeat split; try done.
    constructor; [|done]. by apply String.eqb_neq.
Qed.

(** ** The handlers, step by step *)

Section Runs.
Context `{Environment}.

(** The run of the confirm-booking handler, with the monad unfolded. *)
Lemma confirmBooking_run (req : Request) (w : World) :
  let pid := prop (body req) "paymentIntentId" in
  let hid := param req "hotelId" in
  let rt := paymentIntents_retrieve pid (ext w) in
  let w1 := {| hotels := hotels w; ext := rt.2;
               trace := trace w ++ [EvPaymentIntentsRetrieve pid] |} in
  let f := db_fault (DbFindOneAndUpdate hid (newBooking_of req)) rt.2 in
  let tr := trace w1 ++ [EvDb (DbFindOneAndUpdate hid (newBooking_of req))] in
  confirmBooking req w =
  match rt.1 with
  | Thrown _ => (Ok (status_json 500 (PMessage "Something went wrong")), w1)
  | Ok None => (Ok (status_json 400 (PMessage "Payment intent not found")), w1)
  | Ok (Some paymentIntent) =>
      if negb (metadata_matches paymentIntent hid (userId req))
      then (Ok (status_json 400 (PMessage "Payment intent metadata mismatch")),
            w1)
      else if negb (String.eqb (pi_status paymentIntent) "succeeded")
      then (Ok (status_json 400
                  (PMessage ("Payment not succeeded. Status: "
                             +:+ pi_status paymentIntent))), w1)
      else
        match f.1 with
        | Some _ =>
            (Ok (status_json 500 (PMessage "Something went wrong")),
             {| hotels := hotels w; ext := f.2; trace := tr |})
        | None =>
            match push_booking hid (newBooking_of req) (hotels w) with
            | Some (_, l') =>
                (Ok (status_json 200 (PMessage "Booking successful")),
                 {| hotels := l'; ext := f.2; trace := tr |})
            | None =>
                (Ok (status_json 404 (PMessage "Hotel not found")),
                 {| hotels := hotels w; ext := f.2; trace := tr |})
            end
        end
  end.
Proof.
  intros pid hid rt w1 f tr.
  unfold confirmBooking, try_catch, bind, stripe_paymentIntents_retrieve,
    provider_call, ret.
  fold pid hid rt. simpl. fold w1.
  destruct (rt.1) as [[paymentIntent|]|e]; try reflexivity.
  destruct (negb (metadata_matches paymentIntent hid (userId req)));
    [reflexivity|].
  destruct (negb (String.eqb (pi_status paymentIntent) "succeeded"));
    [reflexivity|].
  unfold Hotel_findOneAndUpdate, db_call. simpl. fold f tr.
  destruct (f.1); [reflexivity|].
  destruct (push_booking hid (newBooking_of req) (hotels w)) as [[u l']|];
    reflexivity.
Qed.

Lemma metadata_matches_true (paymentIntent : PaymentIntent)
    (hid uid : string) :
  metadata_matches paymentIntent hid uid = true <->
  pi_metadata paymentIntent !! "hotelId" = Some hid /\
  pi_metadata paymentIntent !! "userId" = Some uid.
Proof.
  unfold metadata_matches. rewrite andb_true_iff, !bool_decide_eq_true.
  done.
Qed.

Lemma payment_confirmed_iff (req : Request) (w : World) :
  payment_confirmed req w <->
  match (paymentIntents_retrieve (prop (body req) "paymentIntentId")
           (ext w)).1 with
  | Ok (Some paymentIntent) =>
      metadata_matches paymentIntent (param req "hotelId") (userId req) = true
      /\ String.eqb (pi_status paymentIntent) "succeeded" = true
  | _ => False
  end.
Proof.
  unfold payment_confirmed.
  destruct (paymentIntents_retrieve _ _).1 as [[paymentIntent|]|e].
  - rewrite metadata_matches_true, String.eqb_eq. split.
    + intros (p & [= <-] & ? & ? & ?). done.
    + intros [[? ?] ?]. by exists paymentIntent.
  - split; [intros (p & ? & _); done | done].
  - split; [intros (p & ? & _); done | done].
Qed.

Local Ltac confirm_case :=
  split; [|eexists; split; [reflexivity|]; simpl];
  repeat match goal with
         | |- _ /\ _ => split
         | |- _ <-> _ => split
         | |- _ -> _ => intro
         | H : _ /\ _ |- _ => destruct H
         | H : _ \/ _ |- _ => destruct H
         | H : exists _, _ |- _ => destruct H
         | H : is_Some None |- _ => destruct H; discriminate
         | Hpc : payment_confirmed ?r ?w <-> _, H : payment_confirmed ?r ?w |- _ =>
             apply Hpc in H
         | Hpc : payment_confirmed ?r ?w <-> _ |- payment_confirmed ?r ?w =>
             apply Hpc
         end;
  try solve [ done | tauto | congruence | lia
            | exfalso; tauto | exfalso; congruence
            | right; right; reflexivity | left; reflexivity
            | right; left; reflexivity
            | left; eexists; reflexivity
            | right; split; [tauto | congruence] ].

(** C1 (as amended): a booking is appended to the target hotel exactly
    when the retrieved payment intent exists, its metadata names the hotel of
    the URL and the authenticated user, its status is "succeeded", and the
    update is not rejected and finds the hotel.  The handler always answers:
    200 when the booking is appended; otherwise nothing is appended and the
    answer is 400, 404 (exactly when the payment is confirmed, the update is
    not rejected and no hotel has the id) or 500 (exactly when the provider
    call throws, or the payment is confirmed and the update is rejected). *)
Theorem confirmBooking_outcome (req : Request) (w : World) :
  let hid := param req "hotelId" in
  let r := confirmBooking req w in
  let appended := booking_appended hid (hotels w) (hotels r.2) in
  (appended <->
   payment_confirmed req w /\ update_fault req w = None /\
   is_Some (find_by_id hid (hotels w))) /\
  exists resp,
    r.1 = Ok resp /\
    (appended -> status resp = 200%nat) /\
    (~ appended ->
     hotels r.2 = hotels w /\
     (status resp = 400%nat \/ status resp = 404%nat \/ status resp = 500%nat)) /\
    (status resp = 404%nat <->
     payment_confirmed req w /\ update_fault req w = None /\
     find_by_id hid (hotels w) = None) /\
    (status resp = 500%nat <->
     (exists e,
        (paymentIntents_retrieve (prop (body req) "paymentIntentId")
           (ext w)).1 = Thrown e) \/
     (payment_confirmed req w /\ update_fault req w <> None)).
Proof.
  intros hid r appended. subst appended r.
  rewrite confirmBooking_run.
  pose proof (payment_confirmed_iff req w) as Hpc.
  unfold update_fault. fold hid in Hpc |- *.
  set (rt := paymentIntents_retrieve _ _) in *.
  assert (Hsame : ~ booking_appended hid (hotels w) (hotels w)).
  { intros Ha. by apply booking_appended_changes in Ha. }
  destruct (rt.1) as [[paymentIntent|]|e]; simpl.
  - destruct (metadata_matches paymentIntent hid (userId req)); simpl.
    + destruct (String.eqb (pi_status paymentIntent) "succeeded"); simpl.
      * set (f := db_fault _ _).
        destruct (f.1) as [e|]; simpl.
        -- confirm_case.
        -- destruct (push_booking hid (newBooking_of req) (hotels w))
             as [[u l']|] eqn:Ep; simpl.
           ++ apply push_booking_Some in Ep
                as (pre & h & post & Hl & Hid & _ & Hf & _ & ->).
              assert (Ha : booking_appended hid (hotels w)
                             (pre ++ with_booking h (newBooking_of req) :: post)).
              { by exists pre, h, post, (newBooking_of req). }
              rewrite Hf. confirm_case.
           ++ apply push_booking_None in Ep. rewrite Ep. confirm_case.
      * confirm_case.
    + confirm_case.
  - confirm_case.
  - confirm_case.
Qed.

(** The run of the search handler, with the monad unfolded. *)
Lemma search_run (req : Request) (w : World) :
  let so := sortOptions_of (prop (query req) "sortOption") in
  let err := status_json 500
               (PMessage "Something went wrong while searching hotels") in
  search req w =
  match constructSearchQuery (query req) with
  | Thrown _ => (Ok err, w)
  | Ok q =>
      let c1 := DbFind q so (Some (skip_of req)) (Some pageSize) in
      let f1 := db_fault c1 (ext w) in
      let w1 := {| hotels := hotels w; ext := f1.2;
                   trace := trace w ++ [EvDb c1] |} in
      match f1.1 with
      | Some _ => (Ok err, w1)
      | None =>
          match find_docs q so (Some (skip_of req)) (Some pageSize)
                  (hotels w) with
          | Thrown _ => (Ok err, w1)
          | Ok found =>
              let c2 := DbCountDocuments q in
              let f2 := db_fault c2 f1.2 in
              let w2 := {| hotels := hotels w; ext := f2.2;
                           trace := trace w1 ++ [EvDb c2] |} in
              let count := Num (Z.of_nat (length (matching q (hotels w)))) in
              match f2.1 with
              | Some _ => (Ok err, w2)
              | None =>
                  (Ok (json (PSearch
                     {| data := found;
                        pagination :=
                          {| total := count;
                             page := pageNumber_of req;
                             pages := ceil_div count pageSize |} |})), w2)
              end
          end
      end
  end.
Proof.
  intros so err.
  unfold search, try_catch, bind, lift, ret. fold so err.
  destruct (constructSearchQuery (query req)) as [q|e]; [|reflexivity].
  unfold Hotel_find, Hotel_countDocuments, db_call. simpl.
  destruct (db_fault _ (ext w)).1; [reflexivity|].
  destruct (find_docs _ _ _ _ _); [|reflexivity]. simpl.
  destruct (db_fault (DbCountDocuments q) _).1; reflexivity.
Qed.

(** The run of the fetch-all handler. *)
Lemma fetchAll_run (req : Request) (w : World) :
  let c := DbFind empty [("lastUpdated", -1)] None None in
  let f := db_fault c (ext w) in
  let w1 := {| hotels := hotels w; ext := f.2;
               trace := trace w ++ [EvDb c] |} in
  fetchAll req w =
  match f.1 with
  | Some _ => (Ok (status_json 500 (PMessage "Error fetching hotels")), w1)
  | None =>
      (Ok (json (PHotels (sort_docs [("lastUpdated", -1)]
                            (matching empty (hotels w))))), w1)
  end.
Proof.
  intros c f w1.
  unfold fetchAll, try_catch, bind, ret, Hotel_find, db_call. fold c f.
  simpl. fold w1. destruct (f.1); reflexivity.
Qed.

(** The run of the fetch-one handler. *)
Lemma fetchOne_run (req : Request) (w : World) :
  let c := DbFindById (param req "id") in
  let f := db_fault c (ext w) in
  let w1 := {| hotels := hotels w; ext := f.2;
               trace := trace w ++ [EvDb c] |} in
  fetchOne req w =
  if String.eqb (param req "id") ""
  then (Ok (status_json 400 (PErrors ["Hotel ID is required"])), w)
  else
    match f.1 with
    | Some _ => (Ok (status_json 500 (PMessage "Error fetching hotel")), w1)
    | None =>
        match find_by_id (param req "id") (hotels w) with
        | None => (Ok (status_json 404 (PMessage "Hotel not found")), w1)
        | Some hotel => (Ok (json (PHotel hotel)), w1)
        end
    end.
Proof.
  intros c f w1.
  unfold fetchOne, validationResult.
  destruct (String.eqb (param req "id") ""); [reflexivity|].
  unfold try_catch, bind, ret, Hotel_findById, db_call. fold c f.
  simpl. fold w1. destruct (f.1); [reflexivity|].
  destruct (find_by_id _ _); reflexivity.
Qed.

(** The run of the payment-intent handler: a rejected lookup is thrown out
    of the handler, failures of the provider are caught. *)
Lemma createPaymentIntent_run (req : Request) (w : World) :
  let hid := param req "hotelId" in
  let c := DbFindById hid in
  let f := db_fault c (ext w) in
  let w1 := {| hotels := hotels w; ext := f.2;
               trace := trace w ++ [EvDb c] |} in
  let cc := customers_create test_customer f.2 in
  let w2 := {| hotels := hotels w; ext := cc.2;
               trace := trace w1 ++ [EvCustomersCreate test_customer] |} in
  let err := status_json 500 (PMessage "Error creating payment intent") in
  createPaymentIntent req w =
  match f.1 with
  | Some e => (Thrown e, w1)
  | None =>
      match find_by_id hid (hotels w) with
      | None => (Ok (status_json 400 (PMessage "Hotel not found")), w1)
      | Some hotel =>
          match cc.1 with
          | Thrown _ => (Ok err, w2)
          | Ok cust =>
              let p := intent_params hotel hid req cust in
              let pc := paymentIntents_create p cc.2 in
              let w3 := {| hotels := hotels w; ext := pc.2;
                           trace := trace w2 ++ [EvPaymentIntentsCreate p] |} in
              match pc.1 with
              | Thrown _ => (Ok err, w3)
              | Ok paymentIntent =>
                  (Ok (json (PPaymentIntent (pi_id paymentIntent)
                               (pi_client_secret paymentIntent)
                               (totalCost_of hotel
                                  (prop (body req) "numberOfNights")))), w3)
              end
          end
      end
  end.
Proof.
  intros hid c f w1 cc w2 err.
  unfold createPaymentIntent, bind, Hotel_findById, db_call. fold hid c f.
  simpl. fold w1. destruct (f.1); [reflexivity|].
  destruct (find_by_id hid (hotels w)) as [hotel|]; [|reflexivity].
  unfold try_catch, bind, ret, stripe_customers_create,
    stripe_paymentIntents_create, provider_call. simpl. fold cc.
  destruct (cc.1) as [cust|e]; [|reflexivity]. simpl.
  destruct (paymentIntents_create _ _).1; reflexivity.
Qed.

(** ** Confirm booking: what is written *)

Lemma confirmBooking_success (req : Request) (w : World) (resp : Response) :
  (confirmBooking req w).1 = Ok resp -> status resp = 200%nat ->
  exists u l',
    push_booking (param req "hotelId") (newBooking_of req) (hotels w)
      = Some (u, l') /\
    hotels (confirmBooking req w).2 = l'.
Proof.
  rewrite confirmBooking_run.
  repeat match goal with
         | |- context [match ?x with _ => _ end] => destruct x eqn:?
         end; simpl; intros [= <-] Hs; try discriminate Hs; eauto.
Qed.

(** C9: on a successful confirm-booking request the collection changes in
    one place only: the first hotel whose [_id] is the hotel id of the URL
    gets exactly one booking appended to its bookings list; every other
    field of that hotel and every other document is unchanged. *)
Theorem confirmBooking_frame (req : Request) (w : World) (resp : Response) :
  (confirmBooking req w).1 = Ok resp -> status resp = 200%nat ->
  exists pre h h' post,
    hotels w = pre ++ h :: post /\
    hotels (confirmBooking req w).2 = pre ++ h' :: post /\
    _id h = param req "hotelId" /\
    Forall (fun x => _id x <> param req "hotelId") pre /\
    bookings h' = bookings h ++ [newBooking_of req] /\
    _id h' = _id h /\ name h' = name h /\ city h' = city h /\
    country h' = country h /\ adultCount h' = adultCount h /\
    childCount h' = childCount h /\ facilities h' = facilities h /\
    type h' = type h /\ starRating h' = starRating h /\
    pricePerNight h' = pricePerNight h /\ lastUpdated h' = lastUpdated h.
Proof.
  intros Hr Hs.
  destruct (confirmBooking_success req w resp Hr Hs) as (u & l' & Hp & ->).
  apply push_booking_Some in Hp
    as (pre & h & post & Hl & Hid & Hpre & _ & _ & ->).
  exists pre, h, (with_booking h (newBooking_of req)), post.
  repeat split; done.
Qed.

(** C8: whatever the request body says, a booking written by the
    confirm-booking handler carries the [userId] of the authenticated
    requester: either the collection is unchanged, or the one booking that is
    appended has [userId = req.userId] and agrees with the body on every
    other key; and every update sent to the database pushes such a booking. *)
Theorem confirmBooking_userId (req : Request) (w : World) :
  let r := confirmBooking req w in
  (hotels r.2 = hotels w \/
   exists pre h h' post b,
     hotels w = pre ++ h :: post /\ hotels r.2 = pre ++ h' :: post /\
     bookings h' = bookings h ++ [b] /\
     b !! "userId" = Some (JStr (userId req)) /\
     delete "userId" b = delete "userId" (body req)) /\
  Forall (fun ev => match ev with
                    | EvDb (DbFindOneAndUpdate _ b) =>
                        b !! "userId" = Some (JStr (userId req))
                    | _ => True
                    end) (new_events w r.2).
Proof.
  intros r. subst r. unfold new_events. rewrite confirmBooking_run.
  assert (Hu : newBooking_of req !! "userId" = Some (JStr (userId req))).
  { unfold newBooking_of. apply lookup_insert_eq. }
  assert (Hd : delete "userId" (newBooking_of req) = delete "userId" (body req)).
  { unfold newBooking_of. apply delete_insert_eq. }
  destruct (paymentIntents_retrieve _ _).1 as [[paymentIntent|]|e]; simpl;
    try (rewrite drop_app_length; split; [by left | by repeat constructor]).
  destruct (negb (metadata_matches _ _ _)); simpl;
    try (rewrite drop_app_length; split; [by left | by repeat constructor]).
  destruct (negb (String.eqb _ _)); simpl;
    try (rewrite drop_app_length; split; [by left | by repeat constructor]).
  destruct (db_fault _ _).1; simpl;
    try (rewrite <- app_assoc, drop_app_length;
         split; [by left | by repeat constructor]).
  destruct (push_booking _ _ _) as [[u l']|] eqn:Hp; simpl;
    rewrite <- app_assoc, drop_app_length;
    (split; [|by repeat constructor]); [|by left].
  right.
  apply push_booking_Some in Hp as (pre & h & post & Hl & _ & _ & _ & _ & ->).
  exists pre, h, (with_booking h (newBooking_of req)), post, (newBooking_of req).
  repeat split; done.
Qed.

(** Two successful confirmations in a row append two bookings. *)
Lemma confirmBooking_twice (req : Request) (w : World)
    (resp1 resp2 : Response) :
  let r1 := confirmBooking req w in
  let r2 := confirmBooking req r1.2 in
  r1.1 = Ok resp1 -> status resp1 = 200%nat ->
  r2.1 = Ok resp2 -> status resp2 = 200%nat ->
  booking_appended (param req "hotelId") (hotels w) (hotels r1.2) /\
  booking_appended (param req "hotelId") (hotels r1.2) (hotels r2.2).
Proof.
  intros r1 r2 H1 S1 H2 S2.
  destruct (confirmBooking_success req w resp1 H1 S1) as (u & l' & Hp & Hl).
  destruct (confirmBooking_success req r1.2 resp2 H2 S2)
    as (u2 & l2 & Hp2 & Hl2).
  fold r1 in Hl. fold r2 in Hl2. rewrite Hl, Hl2. rewrite Hl in Hp2.
  apply push_booking_Some in Hp
    as (pre & h & post & E & Hid & _ & _ & _ & ->).
  apply push_booking_Some in Hp2
    as (pre2 & h2 & post2 & E2 & Hid2 & _ & _ & _ & ->).
  split.
  - exists pre, h, post, (newBooking_of req). done.
  - exists pre2, h2, post2, (newBooking_of req). done.
Qed.

(** ** Payment intent *)


(** A rejected lookup in the payment-intent handler is not caught. *)
Lemma createPaymentIntent_lookup_escapes (req : Request) (w : World)
    (e : Exn) :
  (db_fault (DbFindById (param req "hotelId")) (ext w)).1 = Some e ->
  (createPaymentIntent req w).1 = Thrown e.
Proof. intros Hf. rewrite createPaymentIntent_run, Hf. reflexivity. Qed.

(** The other four handlers answer every request. *)
Lemma search_responds (req : Request) (w : World) :
  exists resp, (search req w).1 = Ok resp.
Proof.
  rewrite search_run. cbv zeta.
  destruct (constructSearchQuery _); [|simpl; eauto].
  destruct (db_fault _ _).1; [simpl; eauto|].
  destruct (find_docs _ _ _ _ _); [|simpl; eauto].
  destruct (db_fault _ _).1; simpl; eauto.
Qed.

Lemma fetchAll_responds (req : Request) (w : World) :
  exists resp, (fetchAll req w).1 = Ok resp.
Proof. rewrite fetchAll_run. destruct (db_fault _ _).1; simpl; eauto. Qed.

Lemma fetchOne_responds (req : Request) (w : World) :
  exists resp, (fetchOne req w).1 = Ok resp.
Proof.
  rewrite fetchOne_run. cbv zeta.
  destruct (String.eqb _ _); [simpl; eauto|].
  destruct (db_fault _ _).1; [simpl; eauto|].
  destruct (find_by_id _ _); simpl; eauto.
Qed.

Lemma confirmBooking_responds (req : Request) (w : World) :
  exists resp, (confirmBooking req w).1 = Ok resp.
Proof.
  rewrite confirmBooking_run. cbv zeta.
  destruct (paymentIntents_retrieve _ _).1 as [[paymentIntent|]|e];
    [|simpl; eauto..].
  destruct (negb (metadata_matches _ _ _)); [simpl; eauto|].
  destruct (negb (String.eqb _ _)); [simpl; eauto|].
  destruct (db_fault _ _).1; [simpl; eauto|].
  destruct (push_booking _ _ _) as [[u l']|]; simpl; eauto.
Qed.

(** ** Database calls per request *)

Lemma new_events_app (before : World) (hs : list Hotel) (e : Ext)
    (evs : list Event) :
  new_events before {| hotels := hs; ext := e; trace := trace before ++ evs |}
  = evs.
Proof. unfold new_events. simpl. apply drop_app_length. Qed.

Lemma new_events_nil (w : World) : new_events w w = [].
Proof. unfold new_events. apply drop_all. Qed.

Local Ltac count_events :=
  cbv zeta;
  repeat match goal with
         | |- context [match ?x with _ => _ end] =>
             lazymatch x with
             | context [match _ with _ => _ end] => fail
             | _ => destruct x
             end
         end;
  simpl; rewrite <- ?app_assoc, ?new_events_app, ?new_events_nil;
  unfold db_calls; simpl; lia.

(** C7 (as amended): a request makes at most one database call, except a
    search request, which makes at most two ([find], then
    [countDocuments]). *)
Theorem handler_db_calls (ep : Endpoint) (req : Request) (w : World) :
  (db_calls (new_events w (handle ep req w).2) <= db_call_bound ep)%nat.
Proof.
  destruct ep; simpl.
  - rewrite search_run. count_events.
  - rewrite fetchAll_run. count_events.
  - rewrite fetchOne_run. count_events.
  - rewrite createPaymentIntent_run. count_events.
  - rewrite confirmBooking_run. count_events.
Qed.

(** ** Search: pagination *)





(** ** Search: the filter *)







End Runs.

(** * The handlers on concrete requests *)

(** The paid request of [u1] on [demo_world] is answered 200 and appends a
    booking to [hotel_a]. *)
Lemma confirmBooking_outcome_witness :
  exists resp,
    (confirmBooking confirm_request demo_world).1 = Ok resp /\
    status resp = 200%nat /\
    booking_appended hotel_a (hotels demo_world)
      (hotels (confirmBooking confirm_request demo_world).2).
Proof.
  destruct (confirmBooking_outcome confirm_request demo_world)
    as (Hiff & resp & Hr & H200 & _).
  assert (Ha : booking_appended hotel_a (hotels demo_world)
                 (hotels (confirmBooking confirm_request demo_world).2)).
  { apply Hiff. split; [|split].
    - exists paid_intent. repeat split; vm_compute; reflexivity.
    - vm_compute; reflexivity.
    - eexists. vm_compute. reflexivity. }
  exists resp. split; [exact Hr|]. split; [exact (H200 Ha) | exact Ha].
Defined.

(** C1, the sentence as stated fails: during a database outage the payment
    of the request is confirmed, yet nothing is appended and the answer is a
    500, neither a 400 nor a 404. *)
Lemma confirm_claim_as_stated_fails :
  payment_confirmed confirm_request demo_world_outage /\
  hotels (confirmBooking confirm_request demo_world_outage).2
    = hotels demo_world_outage /\
  (confirmBooking confirm_request demo_world_outage).1
    = Ok {| status := 500; payload := PMessage "Something went wrong" |} /\
  ~ confirm_claim_as_stated confirm_request demo_world_outage.
Proof.
  assert (Hp : payment_confirmed confirm_request demo_world_outage).
  { exists paid_intent. repeat split; vm_compute; reflexivity. }
  assert (Hh : hotels (confirmBooking confirm_request demo_world_outage).2
               = hotels demo_world_outage) by (vm_compute; reflexivity).
  split; [exact Hp|]. split; [exact Hh|]. split; [vm_compute; reflexivity|].
  intros [Hiff _]. apply Hiff in Hp.
  apply booking_appended_changes in Hp. by apply Hp.
Qed.

(** C2, at the failing input: the hotel id of the URL is not an ObjectId,
    the lookup made before the [try] block rejects with a cast error, and
    the error leaves the handler; no response is produced. *)
Theorem createPaymentIntent_exception_escapes :
  (createPaymentIntent malformed_intent_request demo_world).1 =
  Thrown {| exn_name := "CastError";
            exn_message := "Cast to ObjectId failed" |}.
Proof. vm_compute. reflexivity. Qed.

(** C3: confirm-booking is not idempotent.  There are a store and a request
    such that the same request, answered twice with success, leaves two
    bookings appended to the hotel: its bookings list ends with two entries
    for the same payment intent. *)
Theorem confirmBooking_not_idempotent :
  exists (w : World) (req : Request) (h0 h2 : Hotel) (resp1 resp2 : Response),
    let r1 := confirmBooking req w in
    let r2 := confirmBooking req r1.2 in
    r1.1 = Ok resp1 /\ status resp1 = 200%nat /\
    r2.1 = Ok resp2 /\ status resp2 = 200%nat /\
    booking_appended (param req "hotelId") (hotels w) (hotels r1.2) /\
    booking_appended (param req "hotelId") (hotels r1.2) (hotels r2.2) /\
    find_by_id (param req "hotelId") (hotels w) = Some h0 /\
    find_by_id (param req "hotelId") (hotels r2.2) = Some h2 /\
    bookings h2 = bookings h0 ++ [newBooking_of req; newBooking_of req].
Proof.
  exists demo_world, confirm_request, lake_view,
    (with_booking (with_booking lake_view (newBooking_of confirm_request))
       (newBooking_of confirm_request)),
    (status_json 200 (PMessage "Booking successful")),
    (status_json 200 (PMessage "Booking successful")).
  cbv zeta.
  assert (H1 : (confirmBooking confirm_request demo_world).1
               = Ok (status_json 200 (PMessage "Booking successful")))
    by (vm_compute; reflexivity).
  assert (H2 : (confirmBooking confirm_request
                  (confirmBooking confirm_request demo_world).2).1
               = Ok (status_json 200 (PMessage "Booking successful")))
    by (vm_compute; reflexivity).
  destruct (confirmBooking_twice confirm_request demo_world _ _
              H1 eq_refl H2 eq_refl) as [Ha1 Ha2].
  split; [exact H1|]. split; [reflexivity|].
  split; [exact H2|]. split; [reflexivity|].
  split; [exact Ha1|]. split; [exact Ha2|].
  repeat split; vm_compute; reflexivity.
Qed.





(** C7, the sentence as stated fails: a search request makes two database
    calls. *)
Lemma at_most_one_db_call_fails :
  db_calls (new_events demo_world (search search_request demo_world).2)
    = 2%nat /\
  ~ at_most_one_db_call GetSearch search_request demo_world.
Proof.
  assert (Hc : db_calls (new_events demo_world
                           (search search_request demo_world).2) = 2%nat)
    by (vm_compute; reflexivity).
  split; [exact Hc|]. unfold at_most_one_db_call. simpl handle.
  rewrite Hc. lia.
Qed.

(** The bounds on a search and on a confirmation. *)
Lemma handler_db_calls_witness :
  (db_calls (new_events demo_world
               (handle GetSearch search_request demo_world).2) <= 2)%nat /\
  (db_calls (new_events demo_world
               (handle PostBooking confirm_request demo_world).2) <= 1)%nat.
Proof.
  split.
  - exact (handler_db_calls GetSearch search_request demo_world).
  - exact (handler_db_calls PostBooking confirm_request demo_world).
Defined.

(** The body names another user; the stored booking names [u1]. *)
Lemma confirmBooking_userId_witness :
  body confirm_request !! "userId" = Some (JStr "someone-else") /\
  exists pre h h' post b,
    hotels demo_world = pre ++ h :: post /\
    hotels (confirmBooking confirm_request demo_world).2 = pre ++ h' :: post /\
    bookings h' = bookings h ++ [b] /\
    b !! "userId" = Some (JStr "u1").
Proof.
  split; [vm_compute; reflexivity|].
  destruct (confirmBooking_userId confirm_request demo_world)
    as [[Hsame | (pre & h & h' & post & b & Hw & Hr & Hb & Hu & _)] _].
  - exfalso.
    apply (f_equal (fun l => length (bookings (default lake_view (head l)))))
      in Hsame.
    vm_compute in Hsame. discriminate Hsame.
  - exists pre, h, h', post, b. repeat split; assumption.
Defined.

(** The successful confirmation on [demo_world] changes [hotel_a] only. *)
Lemma confirmBooking_frame_witness :
  (confirmBooking confirm_request demo_world).1
    = Ok (status_json 200 (PMessage "Booking successful")) /\
  exists pre h h' post,
    hotels demo_world = pre ++ h :: post /\
    hotels (confirmBooking confirm_request demo_world).2 = pre ++ h' :: post /\
    _id h = hotel_a /\
    bookings h' = bookings h ++ [newBooking_of confirm_request] /\
    name h' = name h /\ pricePerNight h' = pricePerNight h.
Proof.
  assert (Hr : (confirmBooking confirm_request demo_world).1
               = Ok (status_json 200 (PMessage "Booking successful")))
    by (vm_compute; reflexivity).
  split; [exact Hr|].
  destruct (confirmBooking_frame confirm_request demo_world _ Hr eq_refl)
    as (pre & h & h' & post & Hw & Hw' & Hid & _ & Hb & _ & Hn & _ & _ & _
        & _ & _ & _ & _ & Hp & _).
  exists pre, h, h', post. repeat split; assumption.
Defined.


(** * Further properties of the handlers *)

Section Further.
Context `{Environment}.

(** ** Exceptions *)

(** X1: every endpoint other than the payment-intent one answers every
    request: whatever the database and the provider do, no exception leaves
    the handler. *)
Theorem handlers_respond (ep : Endpoint) (req : Request) (w : World) :
  ep <> PostPaymentIntent ->
  exists resp, (handle ep req w).1 = Ok resp.
Proof.
  destruct ep; simpl; intros Hep; try done.
  - apply search_responds.
  - apply fetchAll_responds.
  - apply fetchOne_responds.
  - apply confirmBooking_responds.
Qed.


(** ** What the handlers leave alone *)

Lemma other_endpoints_keep_collection (ep : Endpoint) (req : Request)
    (w : World) :
  ep <> PostBooking -> hotels (handle ep req w).2 = hotels w.
Proof.
  destruct ep; simpl; intros Hep; try done.
  - rewrite search_run. cbv zeta.
    destruct (constructSearchQuery _); [|done].
    destruct (db_fault _ _).1; [done|].
    destruct (find_docs _ _ _ _ _); [|done].
    destruct (db_fault _ _).1; done.
  - rewrite fetchAll_run. cbv zeta. destruct (db_fault _ _).1; done.
  - rewrite fetchOne_run. cbv zeta.
    destruct (String.eqb _ _); [done|].
    destruct (db_fault _ _).1; [done|].
    destruct (find_by_id _ _); done.
  - rewrite createPaymentIntent_run. cbv zeta.
    destruct (db_fault _ _).1; [done|].
    destruct (find_by_id _ _); [|done].
    destruct (customers_create _ _).1; [|done].
    destruct (paymentIntents_create _ _).1; done.
Qed.

(** X3: only the confirm-booking endpoint writes: every other endpoint
    leaves the Hotel collection exactly as it was, whatever it answers. *)
Theorem read_handlers_keep_collection (ep : Endpoint) (req : Request)
    (w : World) :
  ep <> PostBooking -> hotels (handle ep req w).2 = hotels w.
Proof. apply other_endpoints_keep_collection. Qed.

Lemma push_booking_keeps (id : string) (b : Booking) (l l' : list Hotel)
    (u : Hotel) :
  push_booking id b l = Some (u, l') ->
  Forall2 (fun h h' => _id h' = _id h /\ bookings h `prefix_of` bookings h')
    l l'.
Proof.
  intros Hp.
  apply push_booking_Some in Hp as (pre & h & post & -> & _ & _ & _ & _ & ->).
  apply Forall2_app; [|constructor].
  - apply Forall_Forall2_diag, Forall_forall. intros x _. done.
  - split; [done|]. simpl. by apply prefix_app_r.
  - apply Forall_Forall2_diag, Forall_forall. intros x _. done.
Qed.

(** X4: no request creates, deletes or reorders hotels, and no request
    removes or rewrites a stored booking: after any request to any endpoint
    the collection holds the same hotels in the same order, and each hotel's
    earlier bookings are a prefix of its bookings. *)
Theorem handlers_keep_hotels_and_bookings (ep : Endpoint) (req : Request)
    (w : World) :
  Forall2 (fun h h' => _id h' = _id h /\ bookings h `prefix_of` bookings h')
    (hotels w) (hotels (handle ep req w).2).
Proof.
  assert (Hrefl : Forall2 (fun h h' : Hotel =>
                    _id h' = _id h /\ bookings h `prefix_of` bookings h')
                    (hotels w) (hotels w)).
  { apply Forall_Forall2_diag, Forall_forall. intros x _. done. }
  destruct (decide (ep = PostBooking)) as [->|Hne].
  - simpl. rewrite confirmBooking_run. cbv zeta.
    destruct (paymentIntents_retrieve _ _).1 as [[paymentIntent|]|e];
      [|done..].
    destruct (negb (metadata_matches _ _ _)); [done|].
    destruct (negb (String.eqb _ _)); [done|].
    destruct (db_fault _ _).1; [done|].
    destruct (push_booking _ _ _) as [[u l']|] eqn:Hp; [|done].
    simpl. by eapply push_booking_keeps.
  - by rewrite other_endpoints_keep_collection.
Qed.

(** ** Lookups *)

Lemma find_by_id_Some (id : string) (l : list Hotel) (h : Hotel) :
  find_by_id id l = Some h -> _id h = id /\ h ∈ l.
Proof.
  unfold find_by_id. intros Hf. apply find_some in Hf as [Hin He].
  apply String.eqb_eq in He. split; [done|]. by apply list_elem_of_In.
Qed.

Lemma find_by_id_None (id : string) (l : list Hotel) :
  find_by_id id l = None <-> Forall (fun h => _id h <> id) l.
Proof.
  unfold find_by_id. induction l as [|h l IH]; simpl.
  - split; [constructor | done].
  - destruct (String.eqb (_id h) id) eqn:He.
    + apply String.eqb_eq in He. split; [done|].
      intros Hall. apply Forall_cons in Hall as [Hne _]. done.
    + apply String.eqb_neq in He. rewrite IH, Forall_cons. tauto.
Qed.

(** X5: [GET /:id] with a non-empty id and a lookup that is not rejected
    answers 200 with a hotel of the collection whose [_id] is the requested
    one, or 404 exactly when no hotel has that id. *)
Theorem fetchOne_outcome (req : Request) (w : World) :
  param req "id" <> "" ->
  (db_fault (DbFindById (param req "id")) (ext w)).1 = None ->
  (exists h,
     (fetchOne req w).1 = Ok {| status := 200; payload := PHotel h |} /\
     _id h = param req "id" /\ h ∈ hotels w) \/
  ((fetchOne req w).1
     = Ok {| status := 404; payload := PMessage "Hotel not found" |} /\
   Forall (fun h => _id h <> param req "id") (hotels w)).
Proof.
  intros Hid Hf. rewrite fetchOne_run. cbv zeta. rewrite Hf.
  apply String.eqb_neq in Hid. rewrite Hid.
  destruct (find_by_id _ _) as [h|] eqn:Hfind; simpl.
  - left. exists h. apply find_by_id_Some in Hfind as [? ?]. done.
  - right. split; [done|]. by apply find_by_id_None.
Qed.

(** X6: when no hotel has the id of the URL, the payment-intent handler
    answers 400 "Hotel not found" and makes no provider call: neither a
    customer nor a payment intent is created. *)
Theorem createPaymentIntent_missing_hotel (req : Request) (w : World) :
  (db_fault (DbFindById (param req "hotelId")) (ext w)).1 = None ->
  Forall (fun h => _id h <> param req "hotelId") (hotels w) ->
  (createPaymentIntent req w).1
    = Ok {| status := 400; payload := PMessage "Hotel not found" |} /\
  new_events w (createPaymentIntent req w).2
    = [EvDb (DbFindById (param req "hotelId"))].
Proof.
  intros Hf Hnone. apply find_by_id_None in Hnone.
  rewrite createPaymentIntent_run. cbv zeta. rewrite Hf, Hnone. simpl.
  by rewrite new_events_app.
Qed.

(** X7: the confirm-booking handler always starts by retrieving the payment
    intent named in the body, and it calls the database (once) exactly when
    the payment is confirmed; a missing, mismatching or unpaid intent never
    reaches the database. *)
Theorem confirmBooking_calls (req : Request) (w : World) :
  let retrieve := EvPaymentIntentsRetrieve (prop (body req) "paymentIntentId") in
  let update := EvDb (DbFindOneAndUpdate (param req "hotelId")
                        (newBooking_of req)) in
  let evs := new_events w (confirmBooking req w).2 in
  (payment_confirmed req w /\ evs = [retrieve; update]) \/
  (~ payment_confirmed req w /\ evs = [retrieve]).
Proof.
  intros retrieve update evs. subst evs.
  pose proof (payment_confirmed_iff req w) as Hpc.
  rewrite confirmBooking_run. cbv zeta.
  destruct (paymentIntents_retrieve _ _).1 as [[paymentIntent|]|e]; simpl.
  - destruct (metadata_matches _ _ _); simpl.
    + destruct (String.eqb _ _); simpl.
      * left. split; [by apply Hpc|].
        destruct (db_fault _ _).1; simpl;
          [|destruct (push_booking _ _ _) as [[u l']|]; simpl];
          by rewrite <- app_assoc, new_events_app.
      * right. rewrite new_events_app. split; [|done].
        intros Hc. apply Hpc in Hc as [_ ?]. done.
    + right. rewrite new_events_app. split; [|done].
      intros Hc. apply Hpc in Hc as [? _]. done.
  - right. rewrite new_events_app. split; [|done].
    intros Hc. by apply Hpc in Hc.
  - right. rewrite new_events_app. split; [|done].
    intros Hc. by apply Hpc in Hc.
Qed.

(** X8: an intent made by the payment-intent handler can only be confirmed
    for the hotel and by the user it was made for: when the retrieved intent
    carries the metadata written for request [req0] and the confirming
    request comes from another user or names another hotel, the answer is
    400 "Payment intent metadata mismatch", the database is not called and
    the collection is unchanged. *)
Theorem confirmBooking_other_user_rejected (req0 req : Request) (w : World)
    (hotel : Hotel) (cust : Customer) (paymentIntent : PaymentIntent) :
  (paymentIntents_retrieve (prop (body req) "paymentIntentId") (ext w)).1
    = Ok (Some paymentIntent) ->
  pi_metadata paymentIntent
    = metadata (intent_params hotel (param req0 "hotelId") req0 cust) ->
  userId req <> userId req0 \/ param req "hotelId" <> param req0 "hotelId" ->
  (confirmBooking req w).1
    = Ok {| status := 400;
            payload := PMessage "Payment intent metadata mismatch" |} /\
  hotels (confirmBooking req w).2 = hotels w /\
  db_calls (new_events w (confirmBooking req w).2) = 0%nat.
Proof.
  intros Hr Hm Hdiff.
  assert (Hmm : metadata_matches paymentIntent (param req "hotelId")
                  (userId req) = false).
  { apply not_true_is_false. rewrite metadata_matches_true, Hm. simpl.
    rewrite lookup_insert_eq, lookup_insert_ne, lookup_insert_eq by done.
    intros [[= ?] [= ?]]. destruct Hdiff; congruence. }
  rewrite confirmBooking_run. cbv zeta. rewrite Hr, Hmm. simpl.
  by rewrite new_events_app.
Qed.

(** X9: a confirmed booking is visible through [GET /:id]: after a
    successful confirm-booking request, fetching the hotel of that request
    (with a lookup that is not rejected) answers 200 with a hotel of that id
    whose last booking is the one just written. *)
Theorem confirm_then_fetch (req req' : Request) (w : World) (resp : Response) :
  let w' := (confirmBooking req w).2 in
  (confirmBooking req w).1 = Ok resp -> status resp = 200%nat ->
  param req' "id" = param req "hotelId" -> param req' "id" <> "" ->
  (db_fault (DbFindById (param req' "id")) (ext w')).1 = None ->
  exists h,
    (fetchOne req' w').1 = Ok {| status := 200; payload := PHotel h |} /\
    _id h = param req "hotelId" /\
    last (bookings h) = Some (newBooking_of req).
Proof.
  intros w' Hr Hs Hid Hne Hf.
  destruct (confirmBooking_success req w resp Hr Hs) as (u & l' & Hp & Hl).
  fold w' in Hl.
  apply push_booking_Some in Hp
    as (pre & h & post & _ & Hh & Hpre & _ & _ & ->).
  rewrite fetchOne_run. cbv zeta. rewrite Hf.
  apply String.eqb_neq in Hne. rewrite Hne, Hl, Hid.
  assert (Hfind : find_by_id (param req "hotelId")
                    (pre ++ with_booking h (newBooking_of req) :: post)
                  = Some (with_booking h (newBooking_of req))).
  { unfold find_by_id. clear Hl. induction Hpre as [|x pre Hx _ IH]; simpl.
    - apply String.eqb_eq in Hh. by rewrite Hh.
    - apply String.eqb_neq in Hx. by rewrite Hx. }
  rewrite Hfind. exists (with_booking h (newBooking_of req)).
  split; [done|]. split; [done|]. simpl. apply last_snoc.
Qed.

(** ** Search: filter construction *)

(** X10: a destination that is not a well-formed pattern makes
    [constructSearchQuery] throw; the search handler answers 500 without
    calling the database and leaves the world as it was. *)
Theorem search_malformed_destination (req : Request) (w : World) :
  truthy (prop (query req) "destination") = true ->
  regexp_syntax_ok (ToString (prop (query req) "destination")) = false ->
  (exists e, constructSearchQuery (query req) = Thrown e) /\
  search req w =
    (Ok {| status := 500;
           payload := PMessage "Something went wrong while searching hotels" |},
     w).
Proof.
  intros Ht Hbad.
  assert (Hq : exists e, constructSearchQuery (query req) = Thrown e).
  { unfold constructSearchQuery, new_RegExp. rewrite Ht, Hbad. simpl. eauto. }
  split; [exact Hq|]. destruct Hq as [e Hq].
  rewrite search_run. cbv zeta. by rewrite Hq.
Qed.

Lemma constructSearchQuery_ext (qp1 qp2 : jsobject) :
  Forall (fun k => qp1 !! k = qp2 !! k) filter_params ->
  constructSearchQuery qp1 = constructSearchQuery qp2.
Proof.
  unfold filter_params. intros Hall.
  repeat match goal with
         | H : Forall _ (_ :: _) |- _ => apply Forall_cons in H as [? H]
         end.
  unfold constructSearchQuery, prop.
  repeat match goal with
         | H : qp1 !! _ = qp2 !! _ |- _ => rewrite H; clear H
         end.
  reflexivity.
Qed.

(** X11: the filter depends on the seven filter parameters only: two
    queries that agree on them, whatever else they carry ([page],
    [sortOption], unknown keys), give the same result. *)
Theorem constructSearchQuery_ignores_other_params (qp1 qp2 : jsobject) :
  Forall (fun k => qp1 !! k = qp2 !! k) filter_params ->
  constructSearchQuery qp1 = constructSearchQuery qp2.
Proof. apply constructSearchQuery_ext. Qed.

(** ** Search: the page *)

Lemma insert_by_perm (f : string) (dir : Z) (h : Hotel) (l : list Hotel) :
  insert_by f dir h l ≡ₚ h :: l.
Proof.
  induction l as [|x l IH]; simpl; [done|].
  destruct (strictly_before _ _ _); [|done].
  rewrite IH. apply Permutation_swap.
Qed.

Lemma sort_by_perm (f : string) (dir : Z) (l : list Hotel) :
  sort_by f dir l ≡ₚ l.
Proof.
  unfold sort_by. induction l as [|x l IH]; simpl; [done|].
  by rewrite insert_by_perm, IH.
Qed.

Lemma sort_docs_perm (options : SortOptions) (l : list Hotel) :
  sort_docs options l ≡ₚ l.
Proof.
  unfold sort_docs. induction options as [|fd options IH]; simpl; [done|].
  by rewrite sort_by_perm.
Qed.

Lemma find_docs_subset (q : Filter) (so : SortOptions)
    (skip limit : option number) (l found : list Hotel) :
  find_docs q so skip limit l = Ok found ->
  Forall (fun h => h ∈ l /\ doc_matches q h = true) found /\
  (limit = Some (Num 5) -> (length found <= 5)%nat).
Proof.
  unfold find_docs. intros Hf.
  assert (Hdocs : Forall (fun h => h ∈ l /\ doc_matches q h = true)
                    (sort_docs so (matching q l))).
  { apply Forall_forall. intros h Hh. rewrite sort_docs_perm in Hh.
    unfold matching in Hh. apply list_elem_of_In, filter_In in Hh as [? ?].
    split; [by apply list_elem_of_In | done]. }
  destruct (apply_skip skip _) as [skipped|] eqn:Hs; [|done].
  assert (Hsk : Forall (fun h => h ∈ l /\ doc_matches q h = true) skipped).
  { unfold apply_skip in Hs. destruct skip as [[|n]|].
    - done.
    - destruct (n <? 0); [done|]. inversion Hs; subst. by apply Forall_drop.
    - by inversion Hs; subst. }
  unfold apply_limit in Hf. destruct limit as [[|n]|].
  - done.
  - destruct (n =? 0) eqn:Hn; inversion Hf; subst.
    + split; [done|]. intros [= ->]. done.
    + split; [by apply Forall_take|]. intros [= ->]. rewrite length_take.
      change (Z.to_nat (Z.abs 5)) with 5%nat. lia.
  - inversion Hf; subst. split; [done | done].
Qed.

(** X12: a successful search never returns a hotel that is outside the
    collection or that the database does not match against the filter built
    from the query, and never more than five hotels. *)
Theorem search_results_match (req : Request) (w : World) (resp : Response) :
  (search req w).1 = Ok resp -> status resp = 200%nat ->
  exists q sr,
    constructSearchQuery (query req) = Ok q /\
    payload resp = PSearch sr /\
    Forall (fun h => h ∈ hotels w /\ doc_matches q h = true) (data sr) /\
    (length (data sr) <= 5)%nat /\
    total (pagination sr) = Num (Z.of_nat (length (matching q (hotels w)))).
Proof.
  rewrite search_run. cbv zeta.
  destruct (constructSearchQuery (query req)) as [q|e];
    [|by intros [= <-]].
  destruct (db_fault _ (ext w)).1; [by intros [= <-]|].
  destruct (find_docs _ _ _ _ _) as [found|] eqn:Hf; [|by intros [= <-]].
  destruct (db_fault _ _).1; [by intros [= <-]|].
  simpl. intros [= <-] _.
  apply find_docs_subset in Hf as [Hall Hlen].
  eexists q, _. split; [done|]. split; [reflexivity|]. simpl.
  split; [exact Hall|]. split; [by apply Hlen | reflexivity].
Qed.

(** X13: the size of a page.  For a page number [n >= 1] and calls that do
    not throw, the answer is 200 and carries
    [min 5 (total - (n - 1) * 5)] hotels (none when that is not positive): a
    page past the last one is an empty page, not an error. *)
Theorem search_page_size (req : Request) (w : World) (q : Filter) (n : Z) :
  let so := sortOptions_of (prop (query req) "sortOption") in
  let c1 := DbFind q so (Some (Num ((n - 1) * 5))) (Some (Num 5)) in
  constructSearchQuery (query req) = Ok q ->
  pageNumber_of req = Num n -> 1 <= n ->
  (db_fault c1 (ext w)).1 = None ->
  (db_fault (DbCountDocuments q) (db_fault c1 (ext w)).2).1 = None ->
  exists sr,
    (search req w).1 = Ok {| status := 200; payload := PSearch sr |} /\
    length (data sr) =
      Nat.min 5 (length (matching q (hotels w)) - Z.to_nat ((n - 1) * 5)).
Proof.
  intros so c1 Hq Hn Hpos Hf1 Hf2.
  assert (Hskip : skip_of req = Num ((n - 1) * 5)).
  { unfold skip_of. rewrite Hn. reflexivity. }
  rewrite search_run, Hq. cbv zeta. rewrite Hskip. fold so.
  unfold pageSize. fold c1. rewrite Hf1.
  unfold find_docs, apply_skip.
  destruct ((n - 1) * 5 <? 0) eqn:Hneg; [lia|].
  cbn [apply_limit Z.eqb Z.abs Z.to_nat Pos.to_nat Pos.iter_op Nat.add].
  rewrite Hf2. cbn [fst snd].
  eexists. split; [reflexivity|]. cbn [data].
  rewrite length_take, length_drop, sort_docs_perm. reflexivity.
Qed.

(** X14: a page number that is not a positive integer is not defaulted or
    clamped: [page=0], a negative page or a page that does not parse makes
    the handler ask for a negative or non-numeric skip, the query is
    rejected, the answer is 500 and [countDocuments] is never called. *)
Theorem search_invalid_page (req : Request) (w : World) :
  (forall n, pageNumber_of req = Num n -> n <= 0) ->
  (search req w).1 =
    Ok {| status := 500;
          payload := PMessage "Something went wrong while searching hotels" |}
  /\ (db_calls (new_events w (search req w).2) <= 1)%nat.
Proof.
  intros Hbad.
  assert (Hskip : forall q so l,
            find_docs q so (Some (skip_of req)) (Some pageSize) l
            = Thrown (mongo_error "Skip value must be non-negative") \/
            find_docs q so (Some (skip_of req)) (Some pageSize) l
            = Thrown (mongo_error "Skip value must be an integer")).
  { intros q so l. unfold find_docs, skip_of.
    destruct (pageNumber_of req) as [|n] eqn:Hn; [by right|].
    specialize (Hbad n eq_refl).
    unfold number_sub, number_mul, pageSize, apply_skip.
    destruct ((n - 1) * 5 <? 0) eqn:Hneg; [by left | exfalso; lia]. }
  rewrite search_run. cbv zeta.
  destruct (constructSearchQuery (query req)) as [q|e]; simpl.
  - destruct (db_fault _ (ext w)).1; simpl.
    + rewrite new_events_app. split; [done | unfold db_calls; simpl; lia].
    + destruct (Hskip q (sortOptions_of (prop (query req) "sortOption"))
                  (hotels w)) as [-> | ->]; simpl;
        rewrite new_events_app; (split; [done | unfold db_calls; simpl; lia]).
  - rewrite new_events_nil. split; [done | unfold db_calls; simpl; lia].
Qed.

(** ** Order of the results *)

Lemma strictly_before_asym (dir : Z) (a b : number) :
  strictly_before dir a b = true -> strictly_before dir b a = false.
Proof.
  unfold strictly_before.
  destruct (0 <=? dir), a as [|x], b as [|y]; simpl; try done; lia.
Qed.

Lemma strictly_before_neg_trans (dir : Z) (a b c : number) :
  strictly_before dir b a = false -> strictly_before dir c b = false ->
  strictly_before dir c a = false.
Proof.
  unfold strictly_before.
  destruct (0 <=? dir), a as [|x], b as [|y], c as [|z]; simpl; try done; lia.
Qed.

Lemma insert_by_sorted (f : string) (dir : Z) (h : Hotel) (l : list Hotel) :
  StronglySorted (in_order f dir) l ->
  StronglySorted (in_order f dir) (insert_by f dir h l).
Proof.
  induction l as [|x l IH]; simpl; intros Hs.
  - by repeat constructor.
  - apply StronglySorted_cons in Hs as [Hx Hl].
    destruct (strictly_before _ _ _) eqn:Hb.
    + apply StronglySorted_cons. split; [|by apply IH].
      rewrite insert_by_perm. constructor; [|done].
      by apply strictly_before_asym.
    + apply StronglySorted_cons. split.
      * constructor; [done|]. eapply Forall_impl; [exact Hx|].
        intros y Hy. unfold in_order in *.
        by eapply strictly_before_neg_trans.
      * by apply StronglySorted_cons.
Qed.

Lemma sort_by_sorted (f : string) (dir : Z) (l : list Hotel) :
  StronglySorted (in_order f dir) (sort_by f dir l).
Proof.
  unfold sort_by. induction l as [|x l IH]; simpl; [constructor|].
  by apply insert_by_sorted.
Qed.

Lemma StronglySorted_impl_rel {A} (R S : A -> A -> Prop) (l : list A) :
  (forall a b, R a b -> S a b) -> StronglySorted R l -> StronglySorted S l.
Proof.
  intros HRS. induction 1 as [|x l _ IH Hx]; constructor; [done|].
  eapply Forall_impl; [exact Hx|]. auto.
Qed.

Lemma StronglySorted_take_drop {A} (R : A -> A -> Prop) (l : list A)
    (i j : nat) :
  StronglySorted R l -> StronglySorted R (take i (drop j l)).
Proof.
  intros Hs. rewrite <- (take_drop j l) in Hs.
  apply StronglySorted_app_1_r in Hs.
  rewrite <- (take_drop i (drop j l)) in Hs.
  by apply StronglySorted_app_1_l in Hs.
Qed.

Lemma List_filter_sublist {A} (p : A -> bool) (l : list A) :
  List.filter p l `sublist_of` l.
Proof.
  induction l as [|x l IH]; simpl; [constructor|].
  destruct (p x); by constructor.
Qed.

(** X15: [GET /], when the query is not rejected, answers 200 with every
    hotel that the database matches against the empty filter, each exactly
    once, ordered by [lastUpdated] from the most recent to the oldest. *)
Theorem fetchAll_sorted (req : Request) (w : World) :
  (db_fault (DbFind empty [("lastUpdated", -1)] None None) (ext w)).1
    = None ->
  exists l,
    (fetchAll req w).1 = Ok {| status := 200; payload := PHotels l |} /\
    l ≡ₚ List.filter (doc_matches empty) (hotels w) /\
    StronglySorted (fun a b => lastUpdated b <= lastUpdated a) l.
Proof.
  intros Hf. rewrite fetchAll_run. cbv zeta. rewrite Hf.
  eexists. split; [reflexivity|]. split.
  - apply sort_docs_perm.
  - unfold sort_docs. simpl.
    eapply StronglySorted_impl_rel; [|apply sort_by_sorted].
    unfold in_order, sort_field, strictly_before. simpl.
    intros a b Hab. lia.
Qed.

(** X16: the order of a successful search.  With [sortOption=starRating]
    the hotels come by non-increasing star rating, with
    [sortOption=pricePerNightAsc] by non-decreasing price, with
    [sortOption=pricePerNightDesc] by non-increasing price; with any other
    or no sort option they keep the order they have in the collection. *)
Theorem search_order (req : Request) (w : World) (sr : HotelSearchResponse) :
  let sortOption := prop (query req) "sortOption" in
  (search req w).1 = Ok {| status := 200; payload := PSearch sr |} ->
  (sortOption = JStr "starRating" ->
   StronglySorted (fun a b => number_le (starRating b) (starRating a))
     (data sr)) /\
  (sortOption = JStr "pricePerNightAsc" ->
   StronglySorted (fun a b => number_le (pricePerNight a) (pricePerNight b))
     (data sr)) /\
  (sortOption = JStr "pricePerNightDesc" ->
   StronglySorted (fun a b => number_le (pricePerNight b) (pricePerNight a))
     (data sr)) /\
  (sortOption <> JStr "starRating" ->
   sortOption <> JStr "pricePerNightAsc" ->
   sortOption <> JStr "pricePerNightDesc" ->
   data sr `sublist_of` hotels w).
Proof.
  intros sortOption. rewrite search_run. cbv zeta. fold sortOption.
  destruct (constructSearchQuery (query req)) as [q|e]; [|by intros [=]].
  destruct (db_fault _ (ext w)).1; [by intros [=]|].
  unfold find_docs.
  destruct (apply_skip _ _) as [skipped|] eqn:Hs; [|by intros [=]].
  unfold apply_skip, skip_of in Hs.
  destruct (number_mul _ _) as [|m]; [done|].
  destruct (m <? 0); [done|]. injection Hs as <-.
  unfold apply_limit, pageSize.
  change (5 =? 0) with false. cbv iota.
  destruct (db_fault _ _).1; [by intros [=]|].
  intros [= <-]. cbn [data].
  assert (Hsorted : forall f dir,
            sortOptions_of sortOption = [(f, dir)] ->
            StronglySorted (in_order f dir)
              (take (Z.to_nat (Z.abs 5))
                 (drop (Z.to_nat m)
                    (sort_docs (sortOptions_of sortOption)
                       (matching q (hotels w)))))).
  { intros f dir ->. apply StronglySorted_take_drop.
    unfold sort_docs. simpl. apply sort_by_sorted. }
  split; [|split; [|split]].
  - intros Hso. eapply StronglySorted_impl_rel;
      [|apply (Hsorted "starRating" (-1)); by rewrite Hso].
    unfold in_order, number_le, strictly_before, sort_field. simpl. done.
  - intros Hso. eapply StronglySorted_impl_rel;
      [|apply (Hsorted "pricePerNight" 1); by rewrite Hso].
    unfold in_order, number_le, strictly_before, sort_field. simpl. done.
  - intros Hso. eapply StronglySorted_impl_rel;
      [|apply (Hsorted "pricePerNight" (-1)); by rewrite Hso].
    unfold in_order, number_le, strictly_before, sort_field. simpl. done.
  - intros H1 H2 H3.
    assert (Hnone : sortOptions_of sortOption = []).
    { unfold sortOptions_of. destruct sortOption as [| | | |s| |]; try done.
      destruct (String.eqb s "starRating") eqn:E1;
        [apply String.eqb_eq in E1; congruence|].
      destruct (String.eqb s "pricePerNightAsc") eqn:E2;
        [apply String.eqb_eq in E2; congruence|].
      destruct (String.eqb s "pricePerNightDesc") eqn:E3;
        [apply String.eqb_eq in E3; congruence|]. done. }
    rewrite Hnone. unfold sort_docs. simpl.
    etrans; [apply sublist_take|]. etrans; [apply sublist_drop|].
    apply List_filter_sublist.
Qed.

(** ** Payment intent: a missing number of nights *)

(** X17: the number of nights is not validated.  When the body has no
    [numberOfNights], the handler still creates a customer and asks the
    provider for an intent whose amount is [NaN]; if the provider creates
    it, the answer reports [totalCost = NaN]. *)
Theorem createPaymentIntent_missing_nights (req : Request) (w : World)
    (hotel : Hotel) (cust : Customer) :
  let hid := param req "hotelId" in
  let f := db_fault (DbFindById hid) (ext w) in
  let cc := customers_create test_customer f.2 in
  let r := createPaymentIntent req w in
  body req !! "numberOfNights" = None ->
  f.1 = None -> find_by_id hid (hotels w) = Some hotel -> cc.1 = Ok cust ->
  exists p,
    new_events w r.2 =
      [EvDb (DbFindById hid); EvCustomersCreate test_customer;
       EvPaymentIntentsCreate p] /\
    amount p = NaN /\
    match (paymentIntents_create p cc.2).1 with
    | Ok paymentIntent =>
        r.1 = Ok {| status := 200;
                    payload := PPaymentIntent (pi_id paymentIntent)
                                 (pi_client_secret paymentIntent) NaN |}
    | Thrown _ =>
        r.1 = Ok {| status := 500;
                    payload := PMessage "Error creating payment intent" |}
    end.
Proof.
  intros hid f cc r Hn Hf Hh Hc. subst r.
  assert (Hcost : totalCost_of hotel (prop (body req) "numberOfNights") = NaN).
  { unfold totalCost_of, prop. rewrite Hn. simpl.
    by destruct (pricePerNight hotel). }
  rewrite createPaymentIntent_run. fold hid f cc. cbv zeta.
  rewrite Hf, Hh, Hc, Hcost.
  exists (intent_params hotel hid req cust).
  assert (Ha : amount (intent_params hotel hid req cust) = NaN).
  { unfold intent_params. simpl. by rewrite Hcost. }
  subst cc f hid.
  destruct (paymentIntents_create _ _).1; simpl;
    rewrite <- !app_assoc, new_events_app; done.
Qed.
End Further.

(** ** Page numbers written as numerals *)






Section Pages.
Context `{Environment}.






End Pages.

(** ** The further properties on concrete requests *)

(** [GET /<hotel_a>] is answered. *)
Lemma handlers_respond_witness :
  GetById <> PostPaymentIntent /\
  exists resp, (handle GetById fetch_request demo_world).1 = Ok resp.
Proof.
  split; [discriminate|].
  apply (handlers_respond GetById fetch_request demo_world). discriminate.
Defined.


(** Creating a payment intent leaves the collection alone. *)
Lemma read_handlers_keep_collection_witness :
  PostPaymentIntent <> PostBooking /\
  hotels (handle PostPaymentIntent intent_request demo_world).2 = demo_hotels.
Proof.
  split; [discriminate|].
  apply (read_handlers_keep_collection PostPaymentIntent intent_request
           demo_world). discriminate.
Defined.

(** A successful confirmation keeps the seven hotels and their bookings. *)
Lemma handlers_keep_hotels_and_bookings_witness :
  Forall2 (fun h h' => _id h' = _id h /\ bookings h `prefix_of` bookings h')
    demo_hotels (hotels (handle PostBooking confirm_request demo_world).2).
Proof.
  exact (handlers_keep_hotels_and_bookings PostBooking confirm_request
           demo_world).
Defined.

(** [GET /<hotel_a>] finds Lake View. *)
Lemma fetchOne_outcome_witness :
  param fetch_request "id" <> "" /\
  (db_fault (DbFindById (param fetch_request "id")) (ext demo_world)).1 = None
  /\ (fetchOne fetch_request demo_world).1
     = Ok {| status := 200; payload := PHotel lake_view |}.
Proof.
  assert (Hid : param fetch_request "id" <> "") by (vm_compute; discriminate).
  assert (Hf : (db_fault (DbFindById (param fetch_request "id"))
                  (ext demo_world)).1 = None) by (vm_compute; reflexivity).
  split; [exact Hid|]. split; [exact Hf|].
  destruct (fetchOne_outcome fetch_request demo_world Hid Hf)
    as [(h & Hr & _) | [Hr _]].
  - rewrite Hr. vm_compute in Hr. injection Hr as <-. vm_compute. reflexivity.
  - vm_compute in Hr. discriminate Hr.
Defined.

(** An id that no hotel has: 400 and no provider call. *)
Lemma createPaymentIntent_missing_hotel_witness :
  (db_fault (DbFindById (param unknown_hotel_intent_request "hotelId"))
     (ext demo_world)).1 = None /\
  (createPaymentIntent unknown_hotel_intent_request demo_world).1
    = Ok {| status := 400; payload := PMessage "Hotel not found" |} /\
  new_events demo_world
    (createPaymentIntent unknown_hotel_intent_request demo_world).2
    = [EvDb (DbFindById "64b7f0c2a1d3e4f5a6b7c8ff")].
Proof.
  assert (Hf : (db_fault
                  (DbFindById (param unknown_hotel_intent_request "hotelId"))
                  (ext demo_world)).1 = None) by (vm_compute; reflexivity).
  split; [exact Hf|].
  apply (createPaymentIntent_missing_hotel unknown_hotel_intent_request
           demo_world Hf).
  repeat constructor; vm_compute; discriminate.
Defined.

(** The request of another user stops after the retrieval. *)
Lemma confirmBooking_calls_witness :
  new_events demo_world
    (confirmBooking other_user_confirm_request demo_world).2
  = [EvPaymentIntentsRetrieve (JStr "pi_paid")].
Proof.
  destruct (confirmBooking_calls other_user_confirm_request demo_world)
    as [[Hc _] | [_ He]].
  - exfalso. destruct Hc as (paymentIntent & Hr & _ & Hu & _).
    vm_compute in Hr. injection Hr as <-. vm_compute in Hu. discriminate Hu.
  - exact He.
Defined.

(** [u2] cannot confirm the intent made for [u1]. *)
Lemma confirmBooking_other_user_rejected_witness :
  userId other_user_confirm_request <> userId intent_request /\
  (confirmBooking other_user_confirm_request demo_world).1
    = Ok {| status := 400;
            payload := PMessage "Payment intent metadata mismatch" |} /\
  hotels (confirmBooking other_user_confirm_request demo_world).2
    = demo_hotels.
Proof.
  assert (Hu : userId other_user_confirm_request <> userId intent_request)
    by (vm_compute; discriminate).
  split; [exact Hu|].
  destruct (confirmBooking_other_user_rejected intent_request
              other_user_confirm_request demo_world lake_view
              {| customer_id := "cus_0" |} paid_intent)
    as (Hr & Hh & _).
  - vm_compute. reflexivity.
  - vm_compute. reflexivity.
  - left. exact Hu.
  - split; [exact Hr | exact Hh].
Defined.

(** After the confirmation, [GET /<hotel_a>] shows the booking. *)
Lemma confirm_then_fetch_witness :
  exists h,
    (fetchOne fetch_request (confirmBooking confirm_request demo_world).2).1
      = Ok {| status := 200; payload := PHotel h |} /\
    _id h = hotel_a /\
    last (bookings h) = Some (newBooking_of confirm_request).
Proof.
  apply (confirm_then_fetch confirm_request fetch_request demo_world
           (status_json 200 (PMessage "Booking successful")));
    vm_compute; (reflexivity || discriminate).
Defined.

(** An unbalanced parenthesis as destination. *)
Lemma search_malformed_destination_witness :
  regexp_syntax_ok (ToString (prop (query bad_destination_request)
                                "destination")) = false /\
  search bad_destination_request demo_world =
    (Ok {| status := 500;
           payload := PMessage "Something went wrong while searching hotels" |},
     demo_world).
Proof.
  assert (Hbad : regexp_syntax_ok
                   (ToString (prop (query bad_destination_request)
                                "destination")) = false)
    by (vm_compute; reflexivity).
  split; [exact Hbad|].
  apply (search_malformed_destination bad_destination_request demo_world);
    [vm_compute; reflexivity | exact Hbad].
Defined.

(** The page and the sort option do not change the filter. *)
Lemma constructSearchQuery_ignores_other_params_witness :
  constructSearchQuery (query search_request)
  = constructSearchQuery (list_to_map [("destination", JStr "india")]).
Proof.
  apply (constructSearchQuery_ignores_other_params (query search_request)
           (list_to_map [("destination", JStr "india")])).
  repeat constructor; vm_compute; reflexivity.
Defined.

(** Every hotel on page 2 of the search for India is in India. *)
Lemma search_results_match_witness :
  exists sr,
    (search search_request demo_world).1
      = Ok {| status := 200; payload := PSearch sr |} /\
    Forall (fun h => h ∈ demo_hotels /\ doc_matches india_filter h = true)
      (data sr).
Proof.
  assert (Hs : exists resp, (search search_request demo_world).1 = Ok resp /\
                            status resp = 200%nat).
  { eexists. split; [vm_compute; reflexivity | reflexivity]. }
  destruct Hs as (resp & Hr & Hst).
  destruct (search_results_match search_request demo_world resp Hr Hst)
    as (q & sr & Hq & Hp & Hall & _).
  assert (Hq' : constructSearchQuery (query search_request) = Ok india_filter)
    by (vm_compute; reflexivity).
  rewrite Hq' in Hq. injection Hq as <-.
  exists sr. split; [|exact Hall].
  rewrite Hr. destruct resp as [st pl]. simpl in Hst, Hp. by subst.
Defined.

(** Page 9 of six results is an empty page with status 200. *)
Lemma search_page_size_witness :
  pageNumber_of far_page_request = Num 9 /\
  exists sr,
    (search far_page_request demo_world).1
      = Ok {| status := 200; payload := PSearch sr |} /\
    data sr = [].
Proof.
  assert (Hn : pageNumber_of far_page_request = Num 9)
    by (vm_compute; reflexivity).
  split; [exact Hn|].
  destruct (search_page_size far_page_request demo_world india_filter 9)
    as (sr & Hr & Hlen);
    [vm_compute; reflexivity | exact Hn | lia
    | vm_compute; reflexivity | vm_compute; reflexivity |].
  exists sr. split; [exact Hr|].
  apply length_zero_iff_nil. rewrite Hlen. vm_compute. reflexivity.
Defined.

(** [page=0]: 500 and at most one database call. *)
Lemma search_invalid_page_witness :
  pageNumber_of search_page0_request = Num 0 /\
  (search search_page0_request demo_world).1 =
    Ok {| status := 500;
          payload := PMessage "Something went wrong while searching hotels" |}.
Proof.
  assert (Hn : pageNumber_of search_page0_request = Num 0)
    by (vm_compute; reflexivity).
  split; [exact Hn|].
  apply (search_invalid_page search_page0_request demo_world).
  intros n Hn'. rewrite Hn in Hn'. injection Hn' as <-. lia.
Defined.

(** All seven hotels, the most recently updated first. *)
Lemma fetchAll_sorted_witness :
  exists l,
    (fetchAll fetch_request demo_world).1
      = Ok {| status := 200; payload := PHotels l |} /\
    length l = 7%nat /\
    StronglySorted (fun a b => lastUpdated b <= lastUpdated a) l.
Proof.
  destruct (fetchAll_sorted fetch_request demo_world) as (l & Hr & Hp & Hs);
    [vm_compute; reflexivity|].
  exists l. split; [exact Hr|]. split; [|exact Hs].
  rewrite Hp. vm_compute. reflexivity.
Defined.

(** Page 2 of the search by ascending price is in price order. *)
Lemma search_order_witness :
  exists sr,
    (search search_request demo_world).1
      = Ok {| status := 200; payload := PSearch sr |} /\
    StronglySorted (fun a b => number_le (pricePerNight a) (pricePerNight b))
      (data sr).
Proof.
  eexists. split; [vm_compute; reflexivity|].
  apply (search_order search_request demo_world);
    vm_compute; reflexivity.
Defined.

(** Without [numberOfNights] the provider is asked for an amount of [NaN]
    and refuses. *)
Lemma createPaymentIntent_missing_nights_witness :
  body no_nights_request !! "numberOfNights" = None /\
  exists p,
    new_events demo_world (createPaymentIntent no_nights_request demo_world).2
      = [EvDb (DbFindById hotel_a); EvCustomersCreate test_customer;
         EvPaymentIntentsCreate p] /\
    amount p = NaN.
Proof.
  assert (Hn : body no_nights_request !! "numberOfNights" = None)
    by (vm_compute; reflexivity).
  split; [exact Hn|].
  destruct (createPaymentIntent_missing_nights no_nights_request demo_world
              lake_view {| customer_id := "cus_0" |} Hn)
    as (p & Hev & Ha & _); [vm_compute; reflexivity..|].
  exists p. split; [exact Hev | exact Ha].
Defined.

